(** * District waste dashboards: derived metrics and selection binding

    A shallow embedding of the two dashboards of the repository:
    - the map-click dashboard ("MP DISTRICT WASTE MAP DASHBOARD.py"),
      module [MapDashboard];
    - the dropdown dashboard (app.py), module [DropdownApp].

    Python floats are IEEE binary64 numbers and are modelled by Rocq's
    primitive floats, whose operations are the same binary64 operations.
    Exceptions are modelled by the error monad [result].  Styling
    attributes of the page (colours, fonts, margins, widths) are constants
    of the source and are not carried by the payload types. *)

From Stdlib Require Import ZArith Ascii Floats.
From stdpp Require Import base option list strings gmap.

Local Open Scope Z_scope.
Set Warnings "-inexact-float,-register-all".

(** ** Exceptions *)

Inductive exn :=
  | IndexError
  | KeyError (key : string)
  | TypeError
  | ValueError
  | AttributeError
  | OverflowError
  | ZeroDivisionError.

Inductive result (A : Type) :=
  | Ok (a : A)
  | Raise (e : exn).
Arguments Ok {A} a.
Arguments Raise {A} e.

#[global] Instance result_ret : MRet result := fun A a => Ok a.
#[global] Instance result_bind : MBind result := fun A B f m =>
  match m with
  | Ok a => f a
  | Raise e => Raise e
  end.
#[global] Instance result_fmap : FMap result := fun A B f m =>
  match m with
  | Ok a => Ok (f a)
  | Raise e => Raise e
  end.

Definition returns {A} (m : result A) : Prop := exists a, m = Ok a.

(** ** Python numbers *)

Module Py.

(** [a < b], [a > b], [a == b] on floats. *)
Definition lt (a b : float) : bool := PrimFloat.ltb a b.
Definition gt (a b : float) : bool := PrimFloat.ltb b a.
Definition eq (a b : float) : bool := PrimFloat.eqb a b.
Definition le (a b : float) : bool := PrimFloat.leb a b.

(** [min(a, b)]: the first argument unless the second is smaller. *)
Definition min (a b : float) : float := if lt b a then b else a.

(** [max(a, b)]: the first argument unless the second is greater. *)
Definition max (a b : float) : float := if gt b a then b else a.

(** [max(a, b, c, ...)]: a left-to-right scan keeping the greatest so far. *)
Definition max_of (a : float) (rest : list float) : float :=
  fold_left max rest a.

(** [a / b] raises on a zero divisor (either sign of zero). *)
Definition div (a b : float) : result float :=
  if eq b 0%float then Raise ZeroDivisionError else Ok (PrimFloat.div a b).

(** [int(x)]: truncation towards zero; infinities and NaN raise. *)
Definition int_of_float (x : float) : result Z :=
  match Prim2SF x with
  | S754_zero _ => Ok 0
  | S754_finite s m e =>
      let mag := if 0 <=? e then Z.shiftl (Zpos m) e else Z.shiftr (Zpos m) (- e) in
      Ok (if s then - mag else mag)
  | S754_infinity _ => Raise OverflowError
  | S754_nan => Raise ValueError
  end.

(** [str.lower] and [str.strip] work on all of Unicode, by tables that are
    not part of this development.  The functions below are their
    restriction to ASCII text (what [str.isascii] accepts): the whitespace
    of ASCII and the letters A to Z. *)
Definition isspace (c : ascii) : bool :=
  let n := nat_of_ascii c in
  ((9 <=? n) && (n <=? 13) || (28 <=? n) && (n <=? 32))%nat.

Definition isupper (c : ascii) : bool :=
  let n := nat_of_ascii c in ((65 <=? n) && (n <=? 90))%nat.

Definition lower_char (c : ascii) : ascii :=
  if isupper c then ascii_of_nat (nat_of_ascii c + 32) else c.

Fixpoint lower (s : string) : string :=
  match s with
  | EmptyString => EmptyString
  | String c s' => String (lower_char c) (lower s')
  end.

Fixpoint lstrip (s : string) : string :=
  match s with
  | EmptyString => EmptyString
  | String c s' => if isspace c then lstrip s' else s
  end.

Fixpoint rstrip (s : string) : string :=
  match s with
  | EmptyString => EmptyString
  | String c s' =>
      match rstrip s' with
      | EmptyString => if isspace c then EmptyString else String c EmptyString
      | t => String c t
      end
  end.

Definition strip (s : string) : string := rstrip (lstrip s).

(** The two string methods the map-click callback calls.  The callback
    takes them as a parameter, so that what is proved of it for every
    [str_methods] holds of Python's own; [ascii_methods] evaluates it on
    ASCII names. *)
Record str_methods := {
  str_lower : string -> string;
  str_strip : string -> string
}.

Definition ascii_methods : str_methods :=
  {| str_lower := lower; str_strip := strip |}.

(** The value of a finite float in units of 2^-1074, the spacing of the
    smallest binary64 numbers: every finite binary64 value is a whole
    number of these units. *)
Definition units (x : float) : option Z :=
  match Prim2SF x with
  | S754_zero _ => Some 0
  | S754_finite s m e =>
      let n := Zpos m * 2 ^ (e + 1074) in Some (if s then - n else n)
  | S754_infinity _ | S754_nan => None
  end.

(** [list.insert(i, x)] for [i >= 0]: past the end it appends. *)
Definition insert {A} (i : nat) (x : A) (l : list A) : list A :=
  take i l ++ x :: drop i l.

End Py.

(** ** Spreadsheet cells and [safe] *)

(** A cell of the loaded table, by what [pd.notna] and [float] do on it:
    - [PyNone]: an empty cell ([None], [NaT]), which [pd.notna] rejects;
    - [PyFloat x]: a number; a spreadsheet number is a binary64 value, and
      an integer or boolean cell (or the integer default [0] of [row.get])
      is carried as the float [float] makes of it; [pd.notna] rejects
      exactly NaN;
    - [PyText s parsed]: the text [s], with what [float(s)] makes of it:
      [Some x] when [s] reads as a number (["12.5"] as 12.5, ["nan"] as
      NaN, ["inf"] as infinity), [None] when [float(s)] raises
      [ValueError] (["abc"]); [pd.notna] accepts every text;
    - [PyDatetime s]: a date or time value, which [pd.notna] accepts and on
      which [float] raises [TypeError]. *)
Inductive cell :=
  | PyNone
  | PyFloat (x : float)
  | PyText (s : string) (parsed : option float)
  | PyDatetime (s : string).

Definition notna (val : cell) : bool :=
  match val with
  | PyNone => false
  | PyFloat x => negb (PrimFloat.is_nan x)
  | PyText _ _ | PyDatetime _ => true
  end.

Definition float_of (val : cell) : result float :=
  match val with
  | PyNone => Raise TypeError
  | PyFloat x => Ok x
  | PyText _ (Some x) => Ok x
  | PyText _ None => Raise ValueError
  | PyDatetime _ => Raise TypeError
  end.

(** [def safe(val): return float(val) if pd.notna(val) else 0.0]
    (the same definition in both dashboards). *)
Definition safe (val : cell) : result float :=
  if notna val then float_of val else Ok 0%float.

(** A row of the table: the district's name (the first column, renamed
    "District" at load time) and the remaining columns by header. *)
Record district_row := {
  District : string;
  columns : gmap string cell
}.

(** ** Callback inputs: JSON values as Python objects *)

Inductive pyobj :=
  | ONone
  | OBool (b : bool)
  | ONum (x : float)
  | OStr (s : string)
  | OList (l : list pyobj)
  | ODict (kv : list (string * pyobj)).

Fixpoint assoc {A} (k : string) (kv : list (string * A)) : option A :=
  match kv with
  | [] => None
  | (k', v) :: kv' => if String.eqb k k' then Some v else assoc k kv'
  end.

Fixpoint is_substring (needle hay : string) : bool :=
  String.prefix needle hay ||
  match hay with
  | EmptyString => false
  | String _ hay' => is_substring needle hay'
  end.

(** [bool(o)]. *)
Definition truthy (o : pyobj) : bool :=
  match o with
  | ONone => false
  | OBool b => b
  | ONum x => negb (Py.eq x 0%float)
  | OStr s => negb (String.eqb s "")
  | OList l => match l with [] => false | _ => true end
  | ODict kv => match kv with [] => false | _ => true end
  end.

(** [key in o] for a string [key]. *)
Definition contains (key : string) (o : pyobj) : result bool :=
  match o with
  | ODict kv => Ok (match assoc key kv with Some _ => true | None => false end)
  | OList l =>
      Ok (existsb (fun e => match e with OStr s => String.eqb s key | _ => false end) l)
  | OStr s => Ok (is_substring key s)
  | ONone | OBool _ | ONum _ => Raise TypeError
  end.

(** [o[key]] for a string [key]. *)
Definition getitem (o : pyobj) (key : string) : result pyobj :=
  match o with
  | ODict kv =>
      match assoc key kv with
      | Some v => Ok v
      | None => Raise (KeyError key)
      end
  | _ => Raise TypeError
  end.

(** [o[0]]. *)
Definition getitem0 (o : pyobj) : result pyobj :=
  match o with
  | OList l =>
      match l with
      | x :: _ => Ok x
      | [] => Raise IndexError
      end
  | OStr s =>
      match s with
      | String c _ => Ok (OStr (String c EmptyString))
      | EmptyString => Raise IndexError
      end
  | ODict _ => Raise (KeyError "0")
  | ONone | OBool _ | ONum _ => Raise TypeError
  end.

(** The receiver of [.lower()] must be a string. *)
Definition as_str (o : pyobj) : result string :=
  match o with
  | OStr s => Ok s
  | _ => Raise AttributeError
  end.

(** ** Payloads: page elements and figures *)

(** Text built by f-strings: literal parts and formatted numbers
    ([Fixed d x] is [x] under [:.df], [Grouped n] is [n] under [:,]). *)
Inductive piece :=
  | Lit (s : string)
  | Fixed (digits : nat) (x : float)
  | Grouped (n : Z).
Definition text := list piece.

(** A plotted number: as computed, or passed through [round(x, ndigits)]. *)
Inductive num :=
  | Raw (x : float)
  | Rounded (x : float) (ndigits : Z).

Inductive trace :=
  | Scatter (x : list string) (y : list num)
  | Bar (name : text) (x : list string) (y : list num)
  | Pie (names : list text) (values : list float).

Record figure := {
  title : option string;
  yaxis_range : option (float * float);
  traces : list trace
}.

Inductive html :=
  | Str (s : string)
  | H4 (s : string)
  | P (t : text)
  | Div (children : list html)
  | Graph (fig : figure).

(** ** Derived metrics shared by the two dashboards *)

(** [processed_percent = (sw_proc / sw_gen * 100) if sw_gen > 0 else 0] *)
Definition processed_percent (sw_proc sw_gen : float) : result float :=
  if Py.gt sw_gen 0%float
  then q ← Py.div sw_proc sw_gen; Ok (q * 100)%float
  else Ok 0%float.

(** * The map-click dashboard *)

Module MapDashboard.

Record payload := {
  kpi_cards : list html;
  population_forecast : figure;
  current_bar_pie : list html;
  waste_comp_pie : figure
}.

Definition empty_figure (t : string) : figure :=
  {| title := Some t; yaxis_range := None; traces := [] |}.

Definition placeholder : payload :=
  {| kpi_cards := [Div [Str "Click a district on the map"]];
     population_forecast := empty_figure "Population Forecast";
     current_bar_pie := [];
     waste_comp_pie := empty_figure "Waste Composition" |}.

Definition no_data : payload :=
  {| kpi_cards := [Div [Str "No data for selected district"]];
     population_forecast := empty_figure "Population Forecast";
     current_bar_pie := [];
     waste_comp_pie := empty_figure "Waste Composition" |}.

(** [row.get(col, default)] *)
Definition get (row : district_row) (col : string) (dflt : cell) : cell :=
  default dflt (columns row !! col).

(** The "Pie Chart Patch for >100% Processed". *)
Definition proc_pie (sw_proc sw_gen : float) : float := Py.min sw_proc sw_gen.
Definition gap_pie (sw_proc sw_gen : float) : float :=
  Py.max 0%float (sw_gen - proc_pie sw_proc sw_gen)%float.
Definition proc_label (sw_proc sw_gen : float) : string :=
  if Py.gt sw_proc sw_gen then "Processed (100%)" else "Processed".

(** [other = max(0, sw_gen - (pw + cd + ew))] *)
Definition other (sw_gen pw cd ew : float) : float :=
  Py.max 0%float (sw_gen - (pw + cd + ew))%float.

Definition card (t : string) (value : text) : html := Div [H4 t; P value].

(** The body of the callback once a row is matched. *)
Definition render (district_name : string) (row : district_row) : result payload :=
  census_pop ← safe (get row "Sum of Census 2011 Population" (PyFloat 0));
  sw_gen ← safe (get row "Sum of SW_Generation (TPD)" (PyFloat 0));
  sw_proc ← safe (get row "Sum of SW_Processed_ (TPD)" (PyFloat 0));
  sw_gap ← safe (get row "Sum of SW Collection Gap (in TPD)" (PyFloat 0));
  percent ← processed_percent sw_proc sw_gen;
  sewage_gen ← safe (get row "Sum of Sewage Generation (in MLD)" (PyFloat 0));
  growth_rate ← safe (get row "Average of Decadal Grouth Rate in % (During 2001-2011)" PyNone);
  census_int ← Py.int_of_float census_pop;
  let kpis : list (string * text) :=
    [ ("Census 2011 Pop", [Grouped census_int]);
      ("SW Generated", [Fixed 2 sw_gen; Lit " TPD"]);
      ("% Waste Processed", [Fixed 1 percent; Lit "%"]);
      ("Sewage Gen (MLD)", [Fixed 2 sewage_gen]);
      ("Decadal Growth Rate", [Fixed 2 (growth_rate * 100)%float; Lit "%"]) ] in
  let cards := map (fun kv => card kv.1 kv.2) kpis in
  pop_2025 ← safe (get row "Sum of Projected Population by 2025" (PyFloat 0));
  pop_2030 ← safe (get row "Sum of Projected Population by 2030" (PyFloat 0));
  let pop_forecast :=
    {| title := Some "Population Forecast"; yaxis_range := None;
       traces := [Scatter ["2011"; "2025"; "2030"]
                    [Rounded census_pop 3; Rounded pop_2025 2; Rounded pop_2030 2]] |} in
  let bar_fig :=
    {| title := Some "Current Waste Metrics (TPD)"; yaxis_range := None;
       traces :=
         [ Bar [Lit "Generated: "; Fixed 2 sw_gen; Lit " TPD"] ["Generated"] [Rounded sw_gen 2];
           Bar [Lit "Processed: "; Fixed 2 sw_proc; Lit " TPD"] ["Processed"] [Rounded sw_proc 2];
           Bar [Lit "Gap: "; Fixed 2 sw_gap; Lit " TPD"] ["Gap"] [Rounded sw_gap 2] ] |} in
  let pie_fig :=
    {| title := Some "Processed vs Gap (TPD)"; yaxis_range := None;
       traces := [Pie [[Lit (proc_label sw_proc sw_gen)]; [Lit "Gap"]]
                      [proc_pie sw_proc sw_gen; gap_pie sw_proc sw_gen]] |} in
  pw ← safe (get row "Sum of Estimated PW Generation in TPD" (PyFloat 0));
  cd ← safe (get row "Sum of C&D Waste Generation in TPD - 2025" (PyFloat 0));
  ew_tpa ← safe (get row "Sum of e-waste Generation (TPA)" (PyFloat 0));
  ew ← Py.div ew_tpa 365%float;
  let comp_labels : list text :=
    [ [Lit "Plastic Waste: "; Fixed 2 pw; Lit " TPD"];
      [Lit "C&D: "; Fixed 2 cd; Lit " TPD"];
      [Lit "E-waste: "; Fixed 2 ew; Lit " TPD"];
      [Lit "Other: "; Fixed 2 (other sw_gen pw cd ew); Lit " TPD"] ] in
  let comp_pie :=
    {| title := Some "Waste Composition (TPD)"; yaxis_range := None;
       traces := [Pie comp_labels [pw; cd; ew; other sw_gen pw cd ew]] |} in
  let district_card := Div [H4 "District"; P [Lit district_name]] in
  Ok {| kpi_cards := Py.insert 5 district_card cards;
        population_forecast := pop_forecast;
        current_bar_pie := [Graph bar_fig; Graph pie_fig];
        waste_comp_pie := comp_pie |}.

(** [not clickData or "points" not in clickData] *)
Definition unselected (clickData : pyobj) : result bool :=
  if negb (truthy clickData) then Ok true
  else has ← contains "points" clickData; Ok (negb has).

(** [df[df["District"].str.lower().str.strip() == district_name.lower().strip()]] *)
Definition match_row (py : Py.str_methods) (df : list district_row)
    (district_name : string) : list district_row :=
  List.filter
    (fun r => String.eqb (Py.str_strip py (Py.str_lower py (District r)))
                         (Py.str_strip py (Py.str_lower py district_name))) df.

Definition update_dashboard (py : Py.str_methods) (df : list district_row)
    (clickData : pyobj) : result payload :=
  u ← unselected clickData;
  if (u : bool) then Ok placeholder
  else
    points ← getitem clickData "points";
    point ← getitem0 points;
    location ← getitem point "location";
    district_name ← as_str location;
    match match_row py df district_name with
    | [] => Ok no_data
    | row :: _ => render district_name row
    end.

(** The component property before any click: Dash leaves [clickData] unset. *)
Definition initial_clickData : pyobj := ONone.

End MapDashboard.

(** * The dropdown dashboard (app.py) *)

Module DropdownApp.

Record payload := {
  kpi_cards : list html;
  population_forecast : figure;
  waste_bar_comparison : list html;
  pie_comparison : list html
}.

(** What the handler prints: ["Callback error:"] followed by the exception. *)
Inductive log_line := CallbackError (e : exn).

(** A finished callback: the lines printed and the payload returned. *)
Record outcome := {
  stdout : list log_line;
  returned : payload
}.

(** [go.Figure()] *)
Definition Figure : figure :=
  {| title := None; yaxis_range := None; traces := [] |}.

Definition error_payload : payload :=
  {| kpi_cards := [Div [Str "Error loading data"]];
     population_forecast := Figure;
     waste_bar_comparison := [];
     pie_comparison := [] |}.

(** [df[df["District"] == selected_district]]; a cleared dropdown passes
    [None], which equals no district. *)
Definition select (df : list district_row) (selected_district : option string)
  : list district_row :=
  match selected_district with
  | Some d => List.filter (fun r => String.eqb (District r) d) df
  | None => []
  end.

(** [.iloc[0]] *)
Definition iloc0 {A} (rows : list A) : result A :=
  match rows with
  | r :: _ => Ok r
  | [] => Raise IndexError
  end.

(** [row[col]] *)
Definition col (row : district_row) (c : string) : result cell :=
  match columns row !! c with
  | Some v => Ok v
  | None => Raise (KeyError c)
  end.

Definition card (t : string) (value : text) : html := Div [H4 t; P value].

Definition bar_fig (t x : string) (gen proc gap y_max : float) : figure :=
  {| title := Some t; yaxis_range := Some (0%float, y_max);
     traces := [ Bar [Lit "Generated"] [x] [Raw gen];
                 Bar [Lit "Processed"] [x] [Raw proc];
                 Bar [Lit "Gap"] [x] [Raw gap] ] |}.

Definition pie_fig (t : string) (proc gap : float) : figure :=
  {| title := Some t; yaxis_range := None;
     traces := [Pie [[Lit "Processed"]; [Lit "Gap"]] [proc; gap]] |}.

(** The body of the [try] block. *)
Definition derive (df : list district_row) (selected_district : option string)
  : result payload :=
  row ← iloc0 (select df selected_district);
  census_pop ← col row "Sum of Census 2011 Population" ≫= safe;
  sw_gen ← col row "Sum of SW_Generation (TPD)" ≫= safe;
  sw_proc ← col row "Sum of SW_Processed_ (TPD)" ≫= safe;
  sw_gap ← col row "Sum of SW Collection Gap (in TPD)" ≫= safe;
  percent ← processed_percent sw_proc sw_gen;
  census_int ← Py.int_of_float census_pop;
  let kpis : list text :=
    [ [Grouped census_int];
      [Fixed 2 sw_gen; Lit " TPD"];
      [Fixed 1 percent; Lit "%"];
      [Fixed 2 sw_gap; Lit " TPD"] ] in
  let titles :=
    ["Census 2011 Pop"; "SW Generated"; "% Waste Processed"; "Gap in Collection"] in
  let cards := map (fun tv => card tv.1 tv.2) (zip titles kpis) in
  pop_2011 ← col row "Sum of Census 2011 Population" ≫= safe;
  pop_2025 ← col row "Sum of Projected Population by 2025" ≫= safe;
  pop_2030 ← col row "Sum of Projected Population by 2030" ≫= safe;
  let trend_fig :=
    {| title := Some "Population Forecast"; yaxis_range := None;
       traces := [Scatter ["2011"; "2025"; "2030"]
                    [Raw pop_2011; Raw pop_2025; Raw pop_2030]] |} in
  curr_gen ← col row "Sum of SW_Generation (TPD)" ≫= safe;
  curr_proc ← col row "Sum of SW_Processed_ (TPD)" ≫= safe;
  curr_gap ← col row "Sum of SW Collection Gap (in TPD)" ≫= safe;
  fut_gen ← col row "Sum of SW_Generation (TPD)-2030" ≫= safe;
  fut_proc ← col row "Sum of SW_Processed_ (TPD)-2030" ≫= safe;
  fut_gap ← col row "Sum of SW Collection Gap (in TPD)-2030" ≫= safe;
  let y_max :=
    (Py.max_of curr_gen [curr_proc; curr_gap; fut_gen; fut_proc; fut_gap] * 1.1)%float in
  let current_fig :=
    bar_fig "Current Waste Metrics (TPD)" "Current" curr_gen curr_proc curr_gap y_max in
  let future_fig :=
    bar_fig "2030 Waste Metrics (TPD)" "2030" fut_gen fut_proc fut_gap y_max in
  let current_pie := pie_fig "Current Waste Processed vs Gap" curr_proc curr_gap in
  let future_pie := pie_fig "2030 Waste Processed vs Gap" fut_proc fut_gap in
  Ok {| kpi_cards := cards;
        population_forecast := trend_fig;
        waste_bar_comparison := [Graph current_fig; Graph future_fig];
        pie_comparison := [Graph current_pie; Graph future_pie] |}.

(** [try: ... except Exception as e: print(...); return error payload] *)
Definition update_dashboard (df : list district_row)
    (selected_district : option string) : outcome :=
  match derive df selected_district with
  | Ok p => {| stdout := []; returned := p |}
  | Raise e => {| stdout := [CallbackError e]; returned := error_payload |}
  end.

(** The dropdown of [app.layout]: [value=df["District"].iloc[0]]. *)
Definition initial_value (df : list district_row) : result (option string) :=
  r ← iloc0 df; Ok (Some (District r)).

End DropdownApp.

(** ** Selection state *)

(** The binder's state is the value of the input property; only a
    selection event (a click, a dropdown choice) replaces it. *)
Inductive selection :=
  | Unselected
  | Selected (district : string).

Definition state_after {I} (initial : I) (events : list I) : I :=
  fold_left (fun _ e => e) events initial.

Definition MapDashboard_selection_of (clickData : pyobj) : result selection :=
  u ← MapDashboard.unselected clickData;
  if (u : bool) then Ok Unselected
  else
    points ← getitem clickData "points";
    point ← getitem0 points;
    location ← getitem point "location";
    district_name ← as_str location;
    Ok (Selected district_name).

Definition DropdownApp_selection_of (value : option string) : selection :=
  match value with
  | None => Unselected
  | Some d => Selected d
  end.

(** ** Sample data *)

Definition click (district_name : string) : pyobj :=
  ODict [ ("points",
           OList [ODict [ ("curveNumber", ONum 0%float);
                          ("location", OStr district_name);
                          ("z", ONum 100%float) ]]) ].

Definition sample_row (name : string) (gen proc : cell) : district_row :=
  {| District := name;
     columns :=
       list_to_map
         [ ("Sum of Census 2011 Population", PyFloat 2371061);
           ("Sum of SW_Generation (TPD)", gen);
           ("Sum of SW_Processed_ (TPD)", proc);
           ("Sum of SW Collection Gap (in TPD)", PyFloat 12.5%float);
           ("Sum of Sewage Generation (in MLD)", PyFloat 30%float);
           ("Average of Decadal Grouth Rate in % (During 2001-2011)", PyFloat 0.25%float);
           ("Sum of Projected Population by 2025", PyFloat 2900000.5%float);
           ("Sum of Projected Population by 2030", PyNone);
           ("Sum of Estimated PW Generation in TPD", PyFloat 10%float);
           ("Sum of C&D Waste Generation in TPD - 2025", PyFloat 20%float);
           ("Sum of e-waste Generation (TPA)", PyFloat 730%float);
           ("Sum of SW_Generation (TPD)-2030", PyFloat 150%float);
           ("Sum of SW_Processed_ (TPD)-2030", PyFloat 140%float);
           ("Sum of SW Collection Gap (in TPD)-2030", PyFloat 10%float) ] |}.

Definition sample_df : list district_row :=
  [ sample_row "Bhopal" (PyFloat 100%float) (PyFloat 120%float);
    sample_row "Indore " (PyFloat 0.9%float) (PyFloat 0.2%float);
    sample_row "Sagar" (PyFloat 100%float) (PyFloat 0);
    sample_row "Ujjain" (PyText "abc" None) (PyFloat 5%float) ].

(** ** Vocabulary of the statements *)

(** [clicked clickData name]: the click event carries a first point whose
    location is the string [name], as a click on the choropleth does. *)
Definition clicked (clickData : pyobj) (name : string) : Prop :=
  exists kv point rest,
    clickData = ODict kv /\
    assoc "points" kv = Some (OList (ODict point :: rest)) /\
    assoc "location" point = Some (OStr name).

(** Strings made of whitespace only. *)
Fixpoint all_space (s : string) : bool :=
  match s with
  | EmptyString => true
  | String c s' => Py.isspace c && all_space s'
  end.

(** Two characters that are equal, or the upper-case and lower-case forms
    of one letter (32 apart in ASCII). *)
Definition case_variant (c d : ascii) : bool :=
  Ascii.eqb c d
  || Py.isupper c && (nat_of_ascii d =? nat_of_ascii c + 32)%nat
  || Py.isupper d && (nat_of_ascii c =? nat_of_ascii d + 32)%nat.

(** Two strings that differ only in letter case. *)
Fixpoint same_letters (a b : string) : bool :=
  match a, b with
  | EmptyString, EmptyString => true
  | String c a', String d b' => case_variant c d && same_letters a' b'
  | _, _ => false
  end.

(** The key under which the map-click dashboard compares names. *)
Definition normalised (py : Py.str_methods) (name : string) : string :=
  Py.str_strip py (Py.str_lower py name).

(** No row of the table has the normalised name of [name]. *)
Definition unknown_district (py : Py.str_methods) (df : list district_row)
    (name : string) : Prop :=
  Forall (fun r => normalised py (District r) <> normalised py name) df.

(** Two names that, trimmed, are equal up to letter case. *)
Definition same_name (py : Py.str_methods) (a b : string) : Prop :=
  Py.str_lower py (Py.str_strip py a) = Py.str_lower py (Py.str_strip py b).

(** [str.lower] changes no whitespace and makes none, so trimming before or
    after it gives the same text. *)
Definition lower_keeps_whitespace (py : Py.str_methods) : Prop :=
  forall s, Py.str_strip py (Py.str_lower py s) = Py.str_lower py (Py.str_strip py s).

(** The sign of a binary64 value that is not NaN. *)
Definition signed (s : bool) (x : spec_float) : Prop :=
  match x with
  | S754_zero s' | S754_infinity s' | S754_finite s' _ _ => s' = s
  | S754_nan => False
  end.

(** A binary64 value that is at least zero (either zero, a positive
    number, or plus infinity). *)
Definition nonneg (x : spec_float) : Prop :=
  match x with
  | S754_zero _ => True
  | S754_infinity s | S754_finite s _ _ => s = false
  | S754_nan => False
  end.

(** * Start-up code and layout *)

(** ** The district names of the boundary file (map-click dashboard) *)

Module MapLoad.

(** What a [for] loop over [o] visits: the elements of a list, the keys of
    a dictionary, the characters of a string; other values do not iterate. *)
Definition iterate (o : pyobj) : result (list pyobj) :=
  match o with
  | OList l => Ok l
  | ODict kv => Ok (map (fun e => OStr e.1) kv)
  | OStr s => Ok (map (fun c => OStr (String c EmptyString)) (String.list_ascii_of_string s))
  | ONone | OBool _ | ONum _ => Raise TypeError
  end.

(** A list comprehension: the results in order, or the first exception. *)
Fixpoint comprehension {A B} (f : A -> result B) (l : list A) : result (list B) :=
  match l with
  | [] => Ok []
  | a :: l' => b ← f a; bs ← comprehension f l'; Ok (b :: bs)
  end.

(** [f["properties"]["Dist_Name"]] *)
Definition Dist_Name (f : pyobj) : result pyobj :=
  properties ← getitem f "properties"; getitem properties "Dist_Name".

(** [district_names = [f["properties"]["Dist_Name"]
                       for f in geojson_data["features"]]] *)
Definition district_names (geojson_data : pyobj) : result (list pyobj) :=
  features ← getitem geojson_data "features";
  fs ← iterate features;
  comprehension Dist_Name fs.

End MapLoad.

(** ** The dropdown's options (app.py) *)

Module DropdownLayout.

(** [Series.unique()]: the distinct values in order of first appearance. *)
Fixpoint unique (l : list string) : list string :=
  match l with
  | [] => []
  | x :: l' => x :: List.filter (fun y => negb (String.eqb y x)) (unique l')
  end.

Record option_entry := {
  label : string;
  value : string
}.

(** [options=[{"label": dist, "value": dist} for dist in df["District"].unique()]] *)
Definition options (df : list district_row) : list option_entry :=
  map (fun dist => {| label := dist; value := dist |}) (unique (map District df)).

End DropdownLayout.

(** ** Vocabulary of the further statements *)

(** The columns the map-click callback reads, in the order it reads them. *)
Definition map_columns : list string :=
  [ "Sum of Census 2011 Population";
    "Sum of SW_Generation (TPD)";
    "Sum of SW_Processed_ (TPD)";
    "Sum of SW Collection Gap (in TPD)";
    "Sum of Sewage Generation (in MLD)";
    "Average of Decadal Grouth Rate in % (During 2001-2011)";
    "Sum of Projected Population by 2025";
    "Sum of Projected Population by 2030";
    "Sum of Estimated PW Generation in TPD";
    "Sum of C&D Waste Generation in TPD - 2025";
    "Sum of e-waste Generation (TPA)" ].

(** The columns the dropdown callback reads. *)
Definition dropdown_columns : list string :=
  [ "Sum of Census 2011 Population";
    "Sum of SW_Generation (TPD)";
    "Sum of SW_Processed_ (TPD)";
    "Sum of SW Collection Gap (in TPD)";
    "Sum of Projected Population by 2025";
    "Sum of Projected Population by 2030";
    "Sum of SW_Generation (TPD)-2030";
    "Sum of SW_Processed_ (TPD)-2030";
    "Sum of SW Collection Gap (in TPD)-2030" ].

(** A cell that [safe] turns into a float: anything but text that does not
    read as a number and date or time values. *)
Definition readable (v : cell) : bool :=
  match v with
  | PyText _ None | PyDatetime _ => false
  | _ => true
  end.

(** Every column of [cols] that [row] has holds a readable cell. *)
Definition columns_readable (row : district_row) (cols : list string) : bool :=
  forallb (fun c => match columns row !! c with
                    | Some v => readable v
                    | None => true
                    end) cols.

(** Every column of [cols] is present in [row] and holds a readable cell. *)
Definition columns_present_readable (row : district_row) (cols : list string) : bool :=
  forallb (fun c => match columns row !! c with
                    | Some v => readable v
                    | None => false
                    end) cols.

(** A float that [int] converts: neither NaN nor an infinity. *)
Definition integral (x : float) : bool :=
  negb (PrimFloat.is_nan x) && negb (PrimFloat.is_infinity x).

(** The census population of [row], as [safe] reads it (0.0 when the cell
    is missing or empty), is one that [int] converts. *)
Definition population_integral (row : district_row) : bool :=
  match safe (default (PyFloat 0) (columns row !! "Sum of Census 2011 Population")) with
  | Ok x => integral x
  | Raise _ => true
  end.

(** A boundary file with two features. *)
Definition sample_feature (name : string) : pyobj :=
  ODict [ ("type", OStr "Feature");
          ("properties", ODict [("Dist_Name", OStr name)]) ].

Definition sample_geojson : list (string * pyobj) :=
  [ ("type", OStr "FeatureCollection");
    ("features", OList [sample_feature "Bhopal"; sample_feature "Indore"]) ].

(** * Proofs *)

(** ** The error monad *)

Lemma bind_Ok {A B} (m : result A) (f : A -> result B) (b : B) :
  m ≫= f = Ok b -> exists a, m = Ok a /\ f a = Ok b.
Proof. destruct m as [a|e]; [by exists a | done]. Qed.

Lemma bind_Raise {A B} (m : result A) (f : A -> result B) (e : exn) :
  m ≫= f = Raise e -> m = Raise e \/ exists a, m = Ok a /\ f a = Raise e.
Proof.
  destruct m as [a|e']; simpl; intros H; [right; by exists a | left].
  by injection H as ->.
Qed.

Ltac bind_inv H :=
  repeat
    (let a := fresh "v" in
     let Ha := fresh "E" in
     apply bind_Ok in H as (a & Ha & H)).

(** ** Binary64 facts *)

Section Binary64.

Lemma sf_zero : Prim2SF 0%float = S754_zero false.
Proof. reflexivity. Qed.

Lemma gt_ne_zero x : Py.gt x 0%float = true -> Py.eq x 0%float = false.
Proof.
  unfold Py.gt, Py.eq. rewrite FloatAxioms.ltb_spec, FloatAxioms.eqb_spec, sf_zero.
  unfold SFltb, SFeqb.
  destruct (Prim2SF x) as [s|s| |s m e]; simpl; try discriminate; by destruct s.
Qed.

Lemma gt_le_zero x : Py.gt x 0%float = true -> Py.le 0%float x = true.
Proof.
  unfold Py.gt, Py.le. rewrite FloatAxioms.ltb_spec, FloatAxioms.leb_spec, sf_zero.
  unfold SFltb, SFleb. by destruct (SFcompare _ _) as [[]|].
Qed.

Lemma le_zero_not_gt x : Py.le x 0%float = true -> Py.gt x 0%float = false.
Proof.
  unfold Py.gt, Py.le. rewrite FloatAxioms.ltb_spec, FloatAxioms.leb_spec, sf_zero.
  unfold SFltb, SFleb.
  destruct (Prim2SF x) as [s|s| |s m e]; simpl; try done; by destruct s.
Qed.

Lemma is_nan_sf x : PrimFloat.is_nan x = false -> Prim2SF x <> S754_nan.
Proof.
  unfold PrimFloat.is_nan. rewrite FloatAxioms.eqb_spec. intros H E.
  rewrite E in H. discriminate.
Qed.

Lemma SFcompare_refl x : x <> S754_nan -> SFcompare x x = Some Eq.
Proof.
  destruct x as [s|s| |s m e]; simpl; try done.
  - by destruct s.
  - intros _. by destruct s; rewrite Z.compare_refl, Pos.compare_cont_refl.
Qed.

(** [x - x] is never positive: it is a zero, or NaN for an infinity. *)
Lemma sub_diag_not_pos x : Py.gt (x - x)%float 0%float = false.
Proof.
  unfold Py.gt. rewrite FloatAxioms.ltb_spec, FloatAxioms.sub_spec, sf_zero.
  unfold SF64sub. destruct (Prim2SF x) as [s|s| |s m e]; simpl.
  - by destruct s.
  - by destruct s.
  - done.
  - by rewrite Z.sub_diag.
Qed.

Lemma le_cases a b :
  Py.le a b = true -> Py.lt a b = true \/ Py.eq a b = true.
Proof.
  unfold Py.le, Py.lt, Py.eq.
  rewrite FloatAxioms.leb_spec, FloatAxioms.ltb_spec, FloatAxioms.eqb_spec.
  unfold SFleb, SFltb, SFeqb. destruct (SFcompare _ _) as [[]|]; auto.
Qed.

Lemma SFcompare_Eq_inv x y :
  SFcompare x y = Some Eq ->
  (exists sx sy, x = S754_zero sx /\ y = S754_zero sy) \/ (x = y /\ x <> S754_nan).
Proof.
  destruct x as [sx|sx| |sx mx ex], y as [sy|sy| |sy my ey]; simpl; intros H;
    try discriminate; try (by destruct sx); try (by destruct sy);
    try (left; by eauto).
  - right. by destruct sx, sy.
  - right. split; [|done].
    destruct sx, sy; try done;
      destruct (ex ?= ey) eqn:Ee; try done; apply Z.compare_eq in Ee as ->;
      destruct (Pos.compare_cont Eq mx my) eqn:Em; try done;
      by apply (Pos.compare_eq mx my) in Em as ->.
Qed.

Lemma SFsub_diag_not_pos x : SFltb (S754_zero false) (SF64sub x x) = false.
Proof.
  unfold SF64sub, SFltb. destruct x as [s|s| |s m e]; simpl.
  - by destruct s.
  - by destruct s.
  - done.
  - by rewrite Z.sub_diag.
Qed.

(** Equal numbers have a difference that is not positive. *)
Lemma eq_sub_not_pos a b :
  Py.eq a b = true -> Py.gt (a - b)%float 0%float = false.
Proof.
  unfold Py.eq, Py.gt.
  rewrite FloatAxioms.eqb_spec, FloatAxioms.ltb_spec, FloatAxioms.sub_spec, sf_zero.
  unfold SFeqb. destruct (SFcompare _ _) as [[]|] eqn:E; try done. intros _.
  apply SFcompare_Eq_inv in E as [(sx & sy & -> & ->)|[-> _]].
  - by destruct sx, sy.
  - apply SFsub_diag_not_pos.
Qed.

(** Adding zero to a number gives a number equal to what it equals. *)
Lemma eq_add_zero a b :
  Py.eq a b = true -> Py.eq (a + 0)%float b = true.
Proof.
  unfold Py.eq.
  rewrite !FloatAxioms.eqb_spec, FloatAxioms.add_spec, sf_zero.
  unfold SFeqb. destruct (SFcompare (Prim2SF a) _) as [[]|] eqn:E; try done. intros _.
  apply SFcompare_Eq_inv in E as [(sx & sy & -> & ->)|[<- Hn]].
  - by destruct sx.
  - destruct (Prim2SF a) as [s|s| |s m e] eqn:Ea; try done.
    + by destruct s.
    + by destruct s.
    + unfold SF64add. cbn [SFadd]. by rewrite SFcompare_refl.
Qed.

Lemma eq_refl_not_nan x : PrimFloat.is_nan x = false -> Py.eq x x = true.
Proof. unfold PrimFloat.is_nan, Py.eq. by destruct (x =? x)%float. Qed.

Lemma eq_sym a b : Py.eq a b = true -> Py.eq b a = true.
Proof.
  unfold Py.eq. rewrite !FloatAxioms.eqb_spec. unfold SFeqb.
  destruct (SFcompare (Prim2SF a) _) as [[]|] eqn:E; try done. intros _.
  apply SFcompare_Eq_inv in E as [(sx & sy & -> & ->)|[<- Hn]]; [done|].
  by rewrite SFcompare_refl.
Qed.

Lemma lt_not_nan_l a b : Py.lt a b = true -> PrimFloat.is_nan a = false.
Proof.
  unfold Py.lt, PrimFloat.is_nan. rewrite FloatAxioms.ltb_spec, FloatAxioms.eqb_spec.
  unfold SFltb, SFeqb. destruct (Prim2SF a) as [s|s| |s m e] eqn:Ea; try done.
  - by destruct s.
  - intros _. by rewrite SFcompare_refl.
Qed.

End Binary64.

(** ** [safe] *)

(** What [safe] makes of a cell that is no text is never NaN. *)
Lemma safe_not_nan val x :
  (forall s parsed, val <> PyText s parsed) ->
  safe val = Ok x -> PrimFloat.is_nan x = false.
Proof.
  unfold safe. destruct val as [|y|s parsed|s]; simpl; intros Ht.
  - by intros [= <-].
  - destruct (PrimFloat.is_nan y) eqn:E; simpl; by intros [= <-].
  - by destruct (Ht s parsed).
  - done.
Qed.

(** ** The processed-versus-gap pie (map-click dashboard) *)

Section PieSplit.

Import MapDashboard.

Lemma pie_over sw_proc sw_gen :
  Py.gt sw_proc sw_gen = true ->
  proc_label sw_proc sw_gen = "Processed (100%)" /\
  proc_pie sw_proc sw_gen = sw_gen /\
  gap_pie sw_proc sw_gen = 0%float.
Proof.
  intros H. unfold proc_label, gap_pie, proc_pie, Py.min, Py.max, Py.lt.
  unfold Py.gt in H. unfold Py.gt at 1. rewrite H.
  by rewrite sub_diag_not_pos.
Qed.

Lemma pie_not_over sw_proc sw_gen :
  Py.gt sw_proc sw_gen = false ->
  proc_label sw_proc sw_gen = "Processed" /\
  proc_pie sw_proc sw_gen = sw_proc /\
  gap_pie sw_proc sw_gen = Py.max 0%float (sw_gen - sw_proc)%float.
Proof.
  intros H. unfold proc_label, gap_pie, proc_pie, Py.min, Py.lt.
  unfold Py.gt in H. unfold Py.gt at 1. by rewrite H.
Qed.

Lemma pie_sum_clamped sw_proc sw_gen :
  Py.le sw_gen sw_proc = true ->
  Py.eq (proc_pie sw_proc sw_gen + gap_pie sw_proc sw_gen)%float sw_gen = true.
Proof.
  intros [Hlt|Heq]%le_cases.
  - destruct (pie_over sw_proc sw_gen Hlt) as (_ & -> & ->).
    apply eq_add_zero, eq_refl_not_nan. by eapply lt_not_nan_l.
  - assert (Py.gt sw_proc sw_gen = false) as Hgt.
    { unfold Py.gt. unfold Py.eq in Heq.
      rewrite FloatAxioms.ltb_spec. rewrite FloatAxioms.eqb_spec in Heq.
      unfold SFltb. unfold SFeqb in Heq. by destruct (SFcompare _ _) as [[]|]. }
    destruct (pie_not_over sw_proc sw_gen Hgt) as (_ & -> & ->).
    unfold Py.max. rewrite (eq_sub_not_pos _ _ Heq).
    by apply eq_add_zero, eq_sym.
Qed.

End PieSplit.

(** ** Signs of binary64 quotients and products *)

Section Signs.

Lemma shr_1_nonneg mrs : 0 <= shr_m mrs -> 0 <= shr_m (shr_1 mrs).
Proof. destruct mrs as [m r s]. destruct m as [|[p|p|]|[p|p|]]; simpl; lia. Qed.

Lemma iter_pos_inv {A} (P : A -> Prop) (f : A -> A) :
  (forall x, P x -> P (f x)) -> forall p x, P x -> P (SpecFloat.iter_pos f p x).
Proof.
  intros Hf p. induction p as [p IH|p IH|]; intros x Hx; simpl; auto.
Qed.

Lemma shr_m_of_loc m l : shr_m (shr_record_of_loc m l) = m.
Proof. by destruct l as [|[]]. Qed.

Lemma shr_fexp_nonneg m e l :
  0 <= m -> 0 <= shr_m (shr_fexp prec emax m e l).1.
Proof.
  intros Hm. unfold shr_fexp, shr.
  destruct (_ - e) as [|p|p]; simpl; rewrite ?shr_m_of_loc; try done.
  apply (iter_pos_inv (fun r => 0 <= shr_m r)); [apply shr_1_nonneg|].
  by rewrite shr_m_of_loc.
Qed.

Lemma round_nearest_even_nonneg m l : 0 <= m -> 0 <= round_nearest_even m l.
Proof. destruct l as [|[]]; simpl; try destruct (Z.even m); lia. Qed.

(** Rounding keeps the sign it is given and never produces NaN. *)
Lemma binary_round_aux_signed s mx ex lx :
  0 <= mx -> signed s (binary_round_aux prec emax s mx ex lx).
Proof.
  intros Hm. unfold binary_round_aux.
  pose proof (shr_fexp_nonneg mx ex lx Hm) as H1.
  destruct (shr_fexp prec emax mx ex lx) as [mrs' e']. simpl in H1.
  pose proof (shr_fexp_nonneg _ e' loc_Exact
                (round_nearest_even_nonneg _ (loc_of_shr_record mrs') H1)) as H2.
  destruct (shr_fexp prec emax (round_nearest_even _ _) e' loc_Exact) as [mrs'' e''].
  simpl in H2. destruct (shr_m mrs'') as [|m|m]; simpl; try done.
  by destruct (e'' <=? _).
Qed.

Lemma signed_nonneg x : signed false x -> nonneg x.
Proof. by destruct x. Qed.

Lemma SFdiv_core_nonneg mx ex my ey :
  0 <= (SFdiv_core_binary prec emax (Zpos mx) ex (Zpos my) ey).1.1.
Proof.
  unfold SFdiv_core_binary.
  set (m' := match _ - _ with Z0 => _ | Zpos _ => _ | Zneg _ => _ end).
  assert (0 <= m') as Hm'.
  { subst m'. destruct (_ - _); try done. by apply Z.shiftl_nonneg. }
  pose proof (Z.div_pos m' (Zpos my) Hm' eq_refl) as Hq.
  unfold Z.div in Hq. by destruct (Z.div_eucl m' (Zpos my)).
Qed.

(** A value at least zero divided by a positive one is at least zero,
    unless both are infinite. *)
Lemma SFdiv_nonneg x y :
  nonneg x -> signed false y -> (forall s, y <> S754_zero s) ->
  (forall sx sy, x = S754_infinity sx -> y <> S754_infinity sy) ->
  nonneg (SF64div x y).
Proof.
  intros Hx Hy Hz Hinf. unfold SF64div.
  destruct x as [sx|sx| |sx mx ex], y as [sy|sy| |sy my ey];
    simpl in *; subst; try done.
  all: try (by edestruct Hz).
  - by destruct (Hinf false false).
  - pose proof (SFdiv_core_nonneg mx ex my ey) as Hq.
    destruct (SFdiv_core_binary _ _ _ _ _ _) as [[mz ez] lz]. simpl in Hq.
    by apply signed_nonneg, binary_round_aux_signed.
Qed.

Lemma SFmul_nonneg x m e :
  nonneg x -> nonneg (SF64mul x (S754_finite false m e)).
Proof.
  intros Hx. unfold SF64mul.
  destruct x as [sx|sx| |sx mx ex]; simpl in *; subst; try done.
  by apply signed_nonneg, binary_round_aux_signed.
Qed.

Lemma le_zero_nonneg x : Py.le 0%float x = true <-> nonneg (Prim2SF x).
Proof.
  unfold Py.le. rewrite FloatAxioms.leb_spec, sf_zero. unfold SFleb.
  destruct (Prim2SF x) as [s|s| |s m e]; simpl; try done; by destruct s.
Qed.

Lemma gt_zero_pos x :
  Py.gt x 0%float = true ->
  signed false (Prim2SF x) /\ forall s, Prim2SF x <> S754_zero s.
Proof.
  unfold Py.gt. rewrite FloatAxioms.ltb_spec, sf_zero. unfold SFltb.
  destruct (Prim2SF x) as [s|s| |s m e]; simpl; try done; by destruct s.
Qed.

Lemma eq_zero_sf x : Py.eq x 0%float = true <-> exists s, Prim2SF x = S754_zero s.
Proof.
  unfold Py.eq. rewrite FloatAxioms.eqb_spec, sf_zero. unfold SFeqb.
  destruct (Prim2SF x) as [s|s| |s m e]; simpl; split; try done;
    try (by destruct s); try (by intros [? [=]]); eauto.
Qed.

Lemma is_infinity_sf x s :
  Prim2SF x = S754_infinity s -> PrimFloat.is_infinity x = true.
Proof.
  intros E. unfold PrimFloat.is_infinity.
  by rewrite FloatAxioms.eqb_spec, FloatAxioms.abs_spec, E.
Qed.

Lemma sf_100 : Prim2SF 100%float = S754_finite false 7036874417766400 (-46).
Proof. reflexivity. Qed.

End Signs.

(** ** Exact sums and differences of binary64 numbers *)

Section ExactSums.

Import MapDashboard.

Lemma digits2_size p : digits2_pos p = Pos.size p.
Proof. induction p as [p IH|p IH|]; simpl; by rewrite ?IH. Qed.

Lemma digits2_log2 p : Zpos (digits2_pos p) = Z.log2 (Zpos p) + 1.
Proof.
  rewrite digits2_size. destruct p as [p|p|]; simpl; try done; lia.
Qed.

Lemma iter_xO_value m k : Zpos (Pos.iter xO m k) = Zpos m * 2 ^ Zpos k.
Proof.
  revert m. induction k as [|k IH] using Pos.peano_ind; intros m.
  - simpl. lia.
  - rewrite Pos.iter_succ, Pos2Z.inj_succ, Z.pow_succ_r by lia.
    rewrite Pos2Z.inj_xO, IH. lia.
Qed.

Lemma pow2_xO k : 2 ^ Zpos k~0 = 2 ^ Zpos k * 2 ^ Zpos k.
Proof.
  replace (Zpos k~0) with (Zpos k + Zpos k) by lia.
  apply Z.pow_add_r; lia.
Qed.

Lemma pow2_xI k : 2 ^ Zpos k~1 = 2 * (2 ^ Zpos k * 2 ^ Zpos k).
Proof.
  replace (Zpos k~1) with (Z.succ (Zpos k + Zpos k)) by lia.
  rewrite Z.pow_succ_r, Z.pow_add_r by lia. reflexivity.
Qed.

Lemma shr_1_exact m :
  shr_1 {| shr_m := 2 * Zpos m; shr_r := false; shr_s := false |}
  = {| shr_m := Zpos m; shr_r := false; shr_s := false |}.
Proof. reflexivity. Qed.

Lemma iter_shr_exact k m M :
  M = Zpos m * 2 ^ Zpos k ->
  SpecFloat.iter_pos shr_1 k {| shr_m := M; shr_r := false; shr_s := false |}
  = {| shr_m := Zpos m; shr_r := false; shr_s := false |}.
Proof.
  revert m M. induction k as [k IH|k IH|]; intros m M HM; cbn [SpecFloat.iter_pos].
  - assert (M = 2 * Zpos (Pos.iter xO (Pos.iter xO m k) k)) as ->.
    { rewrite HM, !iter_xO_value, pow2_xI. lia. }
    rewrite shr_1_exact.
    rewrite (IH (Pos.iter xO m k)) by apply iter_xO_value.
    apply IH, iter_xO_value.
  - rewrite (IH (Pos.iter xO m k)).
    + apply IH, iter_xO_value.
    + rewrite HM, iter_xO_value, pow2_xO. lia.
  - assert (M = 2 * Zpos m) as -> by lia. apply shr_1_exact.
Qed.

(** Rounding a canonical mantissa and exponent changes nothing. *)
Lemma binary_round_aux_canonical s m e :
  bounded prec emax m e = true ->
  binary_round_aux prec emax s (Zpos m) e loc_Exact = S754_finite s m e.
Proof.
  unfold bounded, canonical_mantissa.
  intros [Hc%Z.eqb_eq He]%andb_true_iff.
  unfold binary_round_aux, shr_fexp. simpl Zdigits2.
  rewrite Hc, Z.sub_diag. simpl. rewrite Hc, Z.sub_diag. simpl. by rewrite He.
Qed.

(** A positive whole number of units that is the value of a binary64 number
    normalises to that number. *)
Lemma binary_normalize_exact M e m' e' szero :
  0 < M -> bounded prec emax m' e' = true ->
  -1074 <= e -> -1074 <= e' ->
  M * 2 ^ (e + 1074) = Zpos m' * 2 ^ (e' + 1074) ->
  binary_normalize prec emax M e szero = S754_finite false m' e'.
Proof.
  intros HM Hb He He' Hv. destruct M as [|mM|mM]; try done. simpl.
  pose proof Hb as Hb'. unfold bounded, canonical_mantissa in Hb'.
  apply andb_true_iff in Hb' as [Hc%Z.eqb_eq _].
  assert (Zpos (digits2_pos mM) + e = Zpos (digits2_pos m') + e') as Hd.
  { rewrite !digits2_log2.
    assert (Z.log2 (Zpos mM * 2 ^ (e + 1074)) = Z.log2 (Zpos m' * 2 ^ (e' + 1074)))
      as Hl by (by rewrite Hv).
    rewrite !Z.log2_mul_pow2 in Hl by lia. lia. }
  assert (0 < 2 ^ (e + 1074)) as Hpe by (apply Z.pow_pos_nonneg; lia).
  assert (0 < 2 ^ (e' + 1074)) as Hpe' by (apply Z.pow_pos_nonneg; lia).
  unfold binary_round. rewrite Hd, Hc. unfold shl_align.
  destruct (e' - e) as [|k|k] eqn:Hk.
  - assert (e' = e) as -> by lia.
    assert (mM = m') as -> by (apply Z.mul_cancel_r in Hv; [congruence|lia]).
    by apply binary_round_aux_canonical.
  - assert (Zpos mM = Zpos m' * 2 ^ Zpos k) as HmM.
    { replace (e' + 1074) with ((e + 1074) + Zpos k) in Hv by lia.
      rewrite (Z.pow_add_r 2 (e + 1074) (Zpos k)) in Hv by lia.
      apply (Z.mul_cancel_r _ _ (2 ^ (e + 1074))); [lia|]. rewrite Hv. ring. }
    unfold binary_round_aux, shr_fexp. simpl Zdigits2.
    rewrite Hd, Hc, Hk. unfold shr. simpl shr_record_of_loc.
    rewrite (iter_shr_exact k m' _ HmM). simpl.
    replace (e + Zpos k) with e' by lia.
    rewrite Hc, Z.sub_diag. simpl.
    unfold bounded in Hb. apply andb_true_iff in Hb as [_ Hb]. by rewrite Hb.
  - assert (Zpos (Pos.iter xO mM k) = Zpos m') as Hm.
    { rewrite iter_xO_value.
      replace (e + 1074) with ((e' + 1074) + Zpos k) in Hv by lia.
      rewrite (Z.pow_add_r 2 (e' + 1074) (Zpos k)) in Hv by lia.
      apply (Z.mul_cancel_r _ _ (2 ^ (e' + 1074))); [lia|]. rewrite <- Hv. ring. }
    injection Hm as ->. by apply binary_round_aux_canonical.
Qed.

Lemma bounded_emin m e : bounded prec emax m e = true -> -1074 <= e.
Proof.
  unfold bounded, canonical_mantissa. intros [Hc%Z.eqb_eq _]%andb_true_iff.
  rewrite <- Hc. unfold fexp, SpecFloat.emin, prec, emax. lia.
Qed.

Lemma units_pos x n :
  Py.units x = Some n -> 0 < n ->
  exists m e, Prim2SF x = S754_finite false m e /\
              n = Zpos m * 2 ^ (e + 1074) /\
              bounded prec emax m e = true /\ -1074 <= e.
Proof.
  unfold Py.units. pose proof (Prim2SF_valid x) as Hv.
  destruct (Prim2SF x) as [s|s| |s m e]; try done.
  - intros [= <-]. lia.
  - simpl in Hv. pose proof (bounded_emin _ _ Hv) as He.
    assert (0 < 2 ^ (e + 1074)) by (apply Z.pow_pos_nonneg; lia).
    destruct s; intros [= <-] Hn; [lia|]. by exists m, e.
Qed.

Lemma shl_align_fst m e ez :
  ez <= e -> Zpos (shl_align m e ez).1 = Zpos m * 2 ^ (e - ez).
Proof.
  intros H. unfold shl_align. destruct (ez - e) as [|k|k] eqn:Hk; simpl.
  - replace (e - ez) with 0 by lia. lia.
  - lia.
  - rewrite iter_xO_value. by replace (e - ez) with (Zpos k) by lia.
Qed.

Lemma aligned_units m e ez :
  -1074 <= ez -> ez <= e ->
  Zpos (shl_align m e ez).1 * 2 ^ (ez + 1074) = Zpos m * 2 ^ (e + 1074).
Proof.
  intros H1 H2. rewrite shl_align_fst by done.
  replace (e + 1074) with ((e - ez) + (ez + 1074)) by lia.
  rewrite (Z.pow_add_r 2 (e - ez) (ez + 1074)) by lia. ring.
Qed.

(** A difference of positive numbers whose exact value is a binary64
    number is computed exactly. *)
Lemma sub_exact x y d X Y :
  Py.units x = Some X -> Py.units y = Some Y -> Py.units d = Some (X - Y) ->
  0 < Y -> Y < X -> (x - y)%float = d.
Proof.
  intros Hx Hy Hd HY HXY.
  apply units_pos in Hx as (mx & ex & Ex & -> & Bx & Lx); [|lia].
  apply units_pos in Hy as (my & ey & Ey & -> & By & Ly); [|lia].
  apply units_pos in Hd as (md & ed & Ed & Hv & Bd & Ld); [|lia].
  apply Prim2SF_inj. rewrite FloatAxioms.sub_spec, Ex, Ey, Ed.
  unfold SF64sub, SFsub. simpl cond_Zopp.
  set (ez := Z.min ex ey).
  apply binary_normalize_exact; try done; try lia.
  - assert (0 < 2 ^ (ez + 1074)) by (apply Z.pow_pos_nonneg; lia).
    pose proof (aligned_units mx ex ez ltac:(lia) ltac:(lia)).
    pose proof (aligned_units my ey ez ltac:(lia) ltac:(lia)). nia.
  - rewrite <- Hv, Z.mul_sub_distr_r.
    by rewrite !aligned_units by lia.
Qed.

(** A sum of positive numbers whose exact value is a binary64 number is
    computed exactly. *)
Lemma add_exact x y z X Y :
  Py.units x = Some X -> Py.units y = Some Y -> Py.units z = Some (X + Y) ->
  0 < X -> 0 < Y -> (x + y)%float = z.
Proof.
  intros Hx Hy Hz HX HY.
  apply units_pos in Hx as (mx & ex & Ex & -> & Bx & Lx); [|lia].
  apply units_pos in Hy as (my & ey & Ey & -> & By & Ly); [|lia].
  apply units_pos in Hz as (mz & ez' & Ez & Hv & Bz & Lz); [|lia].
  apply Prim2SF_inj. rewrite FloatAxioms.add_spec, Ex, Ey, Ez.
  unfold SF64add, SFadd. simpl cond_Zopp.
  set (ez := Z.min ex ey).
  apply binary_normalize_exact; try done; try lia.
  rewrite <- Hv, Z.mul_add_distr_r.
  by rewrite !aligned_units by lia.
Qed.

Lemma units_pos_gt x n : Py.units x = Some n -> 0 < n -> Py.gt x 0%float = true.
Proof.
  intros Hx Hn. apply units_pos in Hx as (m & e & E & _); [|done].
  unfold Py.gt. by rewrite FloatAxioms.ltb_spec, sf_zero, E.
Qed.

Lemma units_not_nan x n : Py.units x = Some n -> PrimFloat.is_nan x = false.
Proof.
  unfold Py.units, PrimFloat.is_nan. rewrite FloatAxioms.eqb_spec. unfold SFeqb.
  destruct (Prim2SF x) as [s|s| |s m e] eqn:E; try done; intros _;
    by rewrite SFcompare_refl.
Qed.

Lemma lt_le a b : Py.lt a b = true -> Py.le a b = true.
Proof.
  unfold Py.lt, Py.le. rewrite FloatAxioms.ltb_spec, FloatAxioms.leb_spec.
  unfold SFltb, SFleb. by destruct (SFcompare _ _) as [[]|].
Qed.

(** When the exact difference generated - processed is a binary64 number,
    the slices sum to generated. *)
Lemma pie_sum_exact_difference sw_proc sw_gen d P G :
  Py.units sw_proc = Some P -> Py.units sw_gen = Some G ->
  Py.units d = Some (G - P) -> 0 < P -> P < G ->
  Py.eq (proc_pie sw_proc sw_gen + gap_pie sw_proc sw_gen)%float sw_gen = true.
Proof.
  intros HP HG Hd H0 HPG.
  destruct (Py.gt sw_proc sw_gen) eqn:Hgt.
  - apply pie_sum_clamped. by apply lt_le.
  - destruct (pie_not_over _ _ Hgt) as (_ & -> & ->).
    rewrite (sub_exact sw_gen sw_proc d G P) by done.
    unfold Py.max. rewrite (units_pos_gt d (G - P)) by (done || lia).
    rewrite (add_exact sw_proc d sw_gen P (G - P)); try done; try lia.
    + apply eq_refl_not_nan. by eapply units_not_nan.
    + by replace (P + (G - P)) with G by lia.
Qed.

(** With nothing processed, the slices are 0 and generated. *)
Lemma pie_sum_zero_processed sw_proc sw_gen :
  Py.eq sw_proc 0%float = true -> PrimFloat.is_nan sw_gen = false ->
  Py.eq (proc_pie sw_proc sw_gen + gap_pie sw_proc sw_gen)%float sw_gen = true.
Proof.
  intros [sp Hp]%eq_zero_sf Hn%is_nan_sf.
  destruct (Py.gt sw_proc sw_gen) eqn:Hgt.
  - apply pie_sum_clamped. by apply lt_le.
  - destruct (pie_not_over _ _ Hgt) as (_ & -> & ->).
    unfold Py.gt in Hgt. rewrite FloatAxioms.ltb_spec, Hp in Hgt.
    assert (Prim2SF (sw_gen - sw_proc) = SF64sub (Prim2SF sw_gen) (S754_zero sp)) as Hd
      by (by rewrite FloatAxioms.sub_spec, Hp).
    unfold Py.max, Py.gt. rewrite FloatAxioms.ltb_spec, sf_zero, Hd.
    unfold Py.eq.
    destruct (Prim2SF sw_gen) as [sg|sg| |sg mg eg] eqn:Eg; try done.
    + assert (SFltb (S754_zero false) (SF64sub (S754_zero sg) (S754_zero sp)) = false)
        as -> by (by destruct sg, sp).
      rewrite FloatAxioms.eqb_spec, FloatAxioms.add_spec, Hp, sf_zero, Eg.
      by destruct sp.
    + destruct sg; [done|]. simpl.
      rewrite FloatAxioms.eqb_spec, FloatAxioms.add_spec, Hp, Hd, Eg. done.
    + destruct sg; [done|]. simpl.
      rewrite FloatAxioms.eqb_spec, FloatAxioms.add_spec, Hp, Hd, Eg.
      unfold SF64sub, SF64add. cbn [SFsub SFadd]. unfold SFeqb.
      by rewrite SFcompare_refl.
Qed.


Lemma canonical_digits m e :
  bounded prec emax m e = true ->
  Zpos m < 2 ^ 53 /\ e <= 971 /\ (-1074 < e -> 2 ^ 52 <= Zpos m).
Proof.
  unfold bounded, canonical_mantissa.
  intros [Hc%Z.eqb_eq He%Z.leb_le]%andb_true_iff.
  rewrite digits2_log2 in Hc. unfold fexp, SpecFloat.emin, prec, emax in *.
  pose proof (Z.log2_spec (Zpos m) ltac:(lia)) as [Hlo Hhi].
  split_and!.
  - assert (Z.log2 (Zpos m) + 1 <= 53) as Hd by lia.
    eapply Z.lt_le_trans; [exact Hhi|]. apply Z.pow_le_mono_r; lia.
  - lia.
  - intros Hgt. assert (Z.log2 (Zpos m) = 52) as Hd by lia. by rewrite Hd in Hlo.
Qed.

Lemma canonical_exponent_mono mx ex my ey :
  bounded prec emax mx ex = true -> bounded prec emax my ey = true ->
  Zpos my * 2 ^ (ey + 1074) <= Zpos mx * 2 ^ (ex + 1074) -> ey <= ex.
Proof.
  intros Bx By Hle.
  pose proof (bounded_emin _ _ Bx) as Lx.
  destruct (canonical_digits _ _ Bx) as (Hx & _ & _).
  destruct (canonical_digits _ _ By) as (_ & _ & Hy).
  destruct (Z_le_gt_dec ey ex) as [|Hgt]; [done|]. exfalso.
  specialize (Hy ltac:(lia)).
  replace (ey + 1074) with ((ey - ex - 1) + 1 + (ex + 1074)) in Hle by lia.
  rewrite !Z.pow_add_r in Hle by lia.
  assert (0 < 2 ^ (ex + 1074)) by (apply Z.pow_pos_nonneg; lia).
  assert (0 < 2 ^ (ey - ex - 1)) by (apply Z.pow_pos_nonneg; lia).
  change (2 ^ 1) with 2 in Hle. change (2 ^ 53) with (2 * 2 ^ 52) in Hx.
  assert (Zpos my * (2 ^ (ey - ex - 1) * 2) < 2 * 2 ^ 52) as Hc.
  { apply (Z.mul_lt_mono_pos_r (2 ^ (ex + 1074))); [done|]. nia. }
  nia.
Qed.

Lemma canonical_exists M e :
  0 < M -> M < 2 ^ 53 -> -1074 <= e -> e <= 971 ->
  exists m' e', bounded prec emax m' e' = true /\
                M * 2 ^ (e + 1074) = Zpos m' * 2 ^ (e' + 1074).
Proof.
  intros HM Hlt He1 He2.
  set (k := Z.min (53 - (Z.log2 M + 1)) (e + 1074)).
  assert (Z.log2 M < 53) as Hl by (apply Z.log2_lt_pow2; lia).
  assert (0 <= k) as Hk by lia.
  assert (0 < 2 ^ k) as Hp by (apply Z.pow_pos_nonneg; lia).
  destruct (M * 2 ^ k) as [|m'|m'] eqn:Em; try lia.
  exists m', (e - k). split.
  - unfold bounded, canonical_mantissa. apply andb_true_iff. split.
    + apply Z.eqb_eq. rewrite digits2_log2, <- Em, Z.log2_mul_pow2 by lia.
      unfold fexp, SpecFloat.emin, prec, emax. lia.
    + apply Z.leb_le. unfold prec, emax. lia.
  - rewrite <- Em. replace (e + 1074) with (k + (e - k + 1074)) by lia.
    rewrite (Z.pow_add_r 2 k (e - k + 1074)) by lia. ring.
Qed.

Lemma units_finite m e :
  bounded prec emax m e = true ->
  Py.units (SF2Prim (S754_finite false m e)) = Some (Zpos m * 2 ^ (e + 1074)).
Proof. intros B. unfold Py.units. by rewrite Prim2SF_SF2Prim. Qed.

(** Sterbenz's lemma, for positive numbers: when [P < G <= 2 * P], the
    difference [G - P] is a binary64 number. *)
Lemma difference_representable x y G P :
  Py.units x = Some G -> Py.units y = Some P ->
  0 < P -> P < G -> G <= 2 * P ->
  exists d, Py.units d = Some (G - P).
Proof.
  intros Hx Hy HP HPG HG.
  apply units_pos in Hx as (mx & ex & Ex & -> & Bx & Lx); [|lia].
  apply units_pos in Hy as (my & ey & Ey & -> & By & Ly); [|lia].
  assert (ey <= ex) as Hee by (eapply canonical_exponent_mono; [done..|lia]).
  destruct (canonical_digits _ _ By) as (Hmy & Hey & _).
  assert (0 < 2 ^ (ey + 1074)) as Hpe by (apply Z.pow_pos_nonneg; lia).
  assert (Zpos mx * 2 ^ (ex + 1074) = Zpos mx * 2 ^ (ex - ey) * 2 ^ (ey + 1074)) as HGe.
  { replace (ex + 1074) with ((ex - ey) + (ey + 1074)) at 1 by lia.
    rewrite (Z.pow_add_r 2 (ex - ey) (ey + 1074)) by lia. ring. }
  rewrite HGe in *.
  set (M := Zpos mx * 2 ^ (ex - ey) - Zpos my).
  assert (0 < M) as HM0 by (unfold M; nia).
  assert (M <= Zpos my) as HMle by (unfold M; nia).
  destruct (canonical_exists M ey) as (m' & e' & B' & Hv); try lia.
  exists (SF2Prim (S754_finite false m' e')).
  rewrite units_finite by done. f_equal. rewrite <- Hv. unfold M. ring.
Qed.

Lemma pie_sum_half_processed sw_proc sw_gen P G :
  Py.units sw_proc = Some P -> Py.units sw_gen = Some G ->
  0 < P -> P < G -> G <= 2 * P ->
  Py.eq (proc_pie sw_proc sw_gen + gap_pie sw_proc sw_gen)%float sw_gen = true.
Proof.
  intros HP HG H0 HPG H2.
  destruct (difference_representable sw_gen sw_proc G P) as [d Hd]; try done.
  by eapply pie_sum_exact_difference.
Qed.


(** C1 (as amended): for every row the callback renders, the second chart
    of the bar-and-pie strip is the processed-versus-gap pie; its slices are
    [min(processed, generated)] and [max(0, generated - processed slice)].
    When raw processed exceeds raw generated, the slices are generated and
    0 and the processed slice is labelled "Processed (100%)"; otherwise the
    label is "Processed" and the slices are processed and
    [max(0, generated - processed)].  The two slices sum (in binary64
    arithmetic) to a value equal to generated whenever processed is at
    least generated, whenever processed is zero and generated is a number,
    whenever processed is positive and at least half of generated, and
    more generally whenever 0 < processed < generated and the exact
    difference generated - processed is itself a binary64 number. *)
Theorem pie_split_clamped (district_name : string) (row : district_row) (p : payload) :
  render district_name row = Ok p ->
  exists sw_gen sw_proc label proc_slice gap_slice,
    safe (get row "Sum of SW_Generation (TPD)" (PyFloat 0)) = Ok sw_gen /\
    safe (get row "Sum of SW_Processed_ (TPD)" (PyFloat 0)) = Ok sw_proc /\
    current_bar_pie p !! 1%nat =
      Some (Graph {| title := Some "Processed vs Gap (TPD)"; yaxis_range := None;
                     traces := [Pie [[Lit label]; [Lit "Gap"]] [proc_slice; gap_slice]] |}) /\
    proc_slice = Py.min sw_proc sw_gen /\
    gap_slice = Py.max 0%float (sw_gen - proc_slice)%float /\
    (Py.gt sw_proc sw_gen = true ->
       label = "Processed (100%)" /\ proc_slice = sw_gen /\ gap_slice = 0%float) /\
    (Py.gt sw_proc sw_gen = false ->
       label = "Processed" /\ proc_slice = sw_proc /\
       gap_slice = Py.max 0%float (sw_gen - sw_proc)%float) /\
    (Py.le sw_gen sw_proc = true ->
       Py.eq (proc_slice + gap_slice)%float sw_gen = true) /\
    (Py.eq sw_proc 0%float = true -> PrimFloat.is_nan sw_gen = false ->
       Py.eq (proc_slice + gap_slice)%float sw_gen = true) /\
    (forall P G,
       Py.units sw_proc = Some P -> Py.units sw_gen = Some G ->
       0 < P -> P < G -> G <= 2 * P ->
       Py.eq (proc_slice + gap_slice)%float sw_gen = true) /\
    (forall d P G,
       Py.units sw_proc = Some P -> Py.units sw_gen = Some G ->
       Py.units d = Some (G - P) -> 0 < P -> P < G ->
       Py.eq (proc_slice + gap_slice)%float sw_gen = true).
Proof.
  intros H. unfold render in H. bind_inv H. injection H as <-.
  match goal with
  | Eg : safe (get row "Sum of SW_Generation (TPD)" _) = Ok ?g,
    Ep : safe (get row "Sum of SW_Processed_ (TPD)" _) = Ok ?q |- _ =>
      exists g, q, (proc_label q g), (proc_pie q g), (gap_pie q g)
  end.
  split_and!; try done.
  - by apply pie_over.
  - by apply pie_not_over.
  - apply pie_sum_clamped.
  - apply pie_sum_zero_processed.
  - intros P G. apply pie_sum_half_processed.
  - intros d P G. apply pie_sum_exact_difference.
Qed.

Lemma pie_split_clamped_witness :
  exists p,
    render "Bhopal" (sample_row "Bhopal" (PyFloat 100) (PyFloat 120)) = Ok p /\
    exists sw_gen sw_proc label proc_slice gap_slice,
      safe (get (sample_row "Bhopal" (PyFloat 100) (PyFloat 120))
                "Sum of SW_Generation (TPD)" (PyFloat 0)) = Ok sw_gen /\
      safe (get (sample_row "Bhopal" (PyFloat 100) (PyFloat 120))
                "Sum of SW_Processed_ (TPD)" (PyFloat 0)) = Ok sw_proc /\
      current_bar_pie p !! 1%nat =
        Some (Graph {| title := Some "Processed vs Gap (TPD)"; yaxis_range := None;
                       traces := [Pie [[Lit label]; [Lit "Gap"]] [proc_slice; gap_slice]] |}) /\
      proc_slice = Py.min sw_proc sw_gen /\
      gap_slice = Py.max 0%float (sw_gen - proc_slice)%float /\
      (Py.gt sw_proc sw_gen = true ->
         label = "Processed (100%)" /\ proc_slice = sw_gen /\ gap_slice = 0%float) /\
      (Py.gt sw_proc sw_gen = false ->
         label = "Processed" /\ proc_slice = sw_proc /\
         gap_slice = Py.max 0%float (sw_gen - sw_proc)%float) /\
      (Py.le sw_gen sw_proc = true ->
         Py.eq (proc_slice + gap_slice)%float sw_gen = true) /\
      (Py.eq sw_proc 0%float = true -> PrimFloat.is_nan sw_gen = false ->
         Py.eq (proc_slice + gap_slice)%float sw_gen = true) /\
      (forall P G,
         Py.units sw_proc = Some P -> Py.units sw_gen = Some G ->
         0 < P -> P < G -> G <= 2 * P ->
         Py.eq (proc_slice + gap_slice)%float sw_gen = true) /\
      (forall d P G,
         Py.units sw_proc = Some P -> Py.units sw_gen = Some G ->
         Py.units d = Some (G - P) -> 0 < P -> P < G ->
         Py.eq (proc_slice + gap_slice)%float sw_gen = true).
Proof.
  assert (exists p, render "Bhopal" (sample_row "Bhopal" (PyFloat 100) (PyFloat 120)) = Ok p)
    as [p E] by (eexists; vm_compute; reflexivity).
  exists p. split; [exact E|]. exact (pie_split_clamped _ _ _ E).
Defined.

(** The spec's example: generated 100, processed 120 gives the slices 100
    and 0 under the label "Processed (100%)". *)
Example pie_split_100_120 :
  proc_pie 120 100 = 100%float /\ gap_pie 120 100 = 0%float /\
  proc_label 120 100 = "Processed (100%)".
Proof. by vm_compute. Qed.

(** Three rows with processed below generated whose slices sum exactly:
    in 50/100 and 0.5/0.9 processed is at least half of generated; in
    25/100 it is not, but the difference 75 is a binary64 number. *)
Example pie_sum_exact_examples :
  Py.eq (proc_pie 50 100 + gap_pie 50 100)%float 100 = true /\
  Py.eq (proc_pie 0.5 0.9 + gap_pie 0.5 0.9)%float 0.9 = true /\
  Py.eq (proc_pie 25 100 + gap_pie 25 100)%float 100 = true.
Proof.
  split_and!.
  - eapply (pie_sum_half_processed 50 100); try (vm_compute; reflexivity); by vm_compute.
  - eapply (pie_sum_half_processed 0.5 0.9); try (vm_compute; reflexivity); by vm_compute.
  - eapply (pie_sum_exact_difference 25 100 75); try (vm_compute; reflexivity).
Qed.

(** C1 as stated fails: with generated 0.9 and processed 0.2 (both
    non-negative, processed below generated) the slices are 0.2 and
    0.9 - 0.2, and in binary64 arithmetic their sum is not equal to 0.9. *)
Lemma pie_split_sum_inexact :
  exists p,
    update_dashboard Py.ascii_methods sample_df (click "Indore") = Ok p /\
    current_bar_pie p !! 1%nat =
      Some (Graph {| title := Some "Processed vs Gap (TPD)"; yaxis_range := None;
                     traces := [Pie [[Lit "Processed"]; [Lit "Gap"]]
                                    [0.2; 0.9 - 0.2]%float] |}) /\
    Py.le 0 0.9 = true /\
    Py.eq (0.2 + (0.9 - 0.2))%float 0.9 = false.
Proof.
  eexists. split; [vm_compute; reflexivity|]. by vm_compute.
Qed.

End ExactSums.

(** ** Percent processed (both dashboards) *)

Section PercentProcessed.

Lemma percent_gt sw_proc sw_gen :
  Py.gt sw_gen 0%float = true ->
  processed_percent sw_proc sw_gen = Ok (sw_proc / sw_gen * 100)%float.
Proof.
  intros H. unfold processed_percent, Py.div.
  by rewrite H, (gt_ne_zero _ H).
Qed.

Lemma percent_not_gt sw_proc sw_gen :
  Py.gt sw_gen 0%float = false -> processed_percent sw_proc sw_gen = Ok 0%float.
Proof. intros H. unfold processed_percent. by rewrite H. Qed.

Lemma percent_returns sw_proc sw_gen : returns (processed_percent sw_proc sw_gen).
Proof.
  destruct (Py.gt sw_gen 0%float) eqn:H.
  - eexists. by apply percent_gt.
  - eexists. by apply percent_not_gt.
Qed.

(** The "% Waste Processed" card of the map-click dashboard. *)
Lemma map_percent_card district_name row p :
  MapDashboard.render district_name row = Ok p ->
  exists sw_gen sw_proc pct,
    safe (MapDashboard.get row "Sum of SW_Generation (TPD)" (PyFloat 0)) = Ok sw_gen /\
    safe (MapDashboard.get row "Sum of SW_Processed_ (TPD)" (PyFloat 0)) = Ok sw_proc /\
    processed_percent sw_proc sw_gen = Ok pct /\
    MapDashboard.kpi_cards p !! 2%nat =
      Some (Div [H4 "% Waste Processed"; P [Fixed 1 pct; Lit "%"]]).
Proof.
  intros H. unfold MapDashboard.render in H. bind_inv H. injection H as <-.
  match goal with
  | Eg : safe (MapDashboard.get row "Sum of SW_Generation (TPD)" _) = Ok ?g,
    Ep : safe (MapDashboard.get row "Sum of SW_Processed_ (TPD)" _) = Ok ?q,
    Ec : processed_percent ?q ?g = Ok ?c |- _ => by exists g, q, c
  end.
Qed.

(** The "% Waste Processed" card of the dropdown dashboard. *)
Lemma dropdown_percent_card df selected_district p :
  DropdownApp.derive df selected_district = Ok p ->
  exists row sw_gen sw_proc pct,
    DropdownApp.iloc0 (DropdownApp.select df selected_district) = Ok row /\
    DropdownApp.col row "Sum of SW_Generation (TPD)" ≫= safe = Ok sw_gen /\
    DropdownApp.col row "Sum of SW_Processed_ (TPD)" ≫= safe = Ok sw_proc /\
    processed_percent sw_proc sw_gen = Ok pct /\
    DropdownApp.kpi_cards p !! 2%nat =
      Some (Div [H4 "% Waste Processed"; P [Fixed 1 pct; Lit "%"]]).
Proof.
  intros H. unfold DropdownApp.derive in H.
  apply bind_Ok in H as (row & Erow & H).
  apply bind_Ok in H as (census & Ecensus & H).
  apply bind_Ok in H as (g & Eg & H).
  apply bind_Ok in H as (q & Eq' & H).
  apply bind_Ok in H as (gap & Egap & H).
  apply bind_Ok in H as (c & Ec & H).
  bind_inv H. injection H as <-.
  by exists row, g, q, c.
Qed.

(** C3: percent processed is [processed / generated * 100] when generated
    is positive and 0 when generated is at most 0; the computation raises
    no division error (in particular at generated = 0); and this value is
    what the "% Waste Processed" card of each dashboard shows. *)
Theorem percent_processed_formula :
  (forall sw_proc sw_gen,
     Py.gt sw_gen 0%float = true ->
     processed_percent sw_proc sw_gen = Ok (sw_proc / sw_gen * 100)%float) /\
  (forall sw_proc sw_gen,
     Py.le sw_gen 0%float = true ->
     processed_percent sw_proc sw_gen = Ok 0%float) /\
  (forall sw_proc sw_gen, returns (processed_percent sw_proc sw_gen)) /\
  (forall sw_proc, processed_percent sw_proc 0%float = Ok 0%float) /\
  (forall district_name row p,
     MapDashboard.render district_name row = Ok p ->
     exists sw_gen sw_proc pct,
       safe (MapDashboard.get row "Sum of SW_Generation (TPD)" (PyFloat 0)) = Ok sw_gen /\
       safe (MapDashboard.get row "Sum of SW_Processed_ (TPD)" (PyFloat 0)) = Ok sw_proc /\
       processed_percent sw_proc sw_gen = Ok pct /\
       MapDashboard.kpi_cards p !! 2%nat =
         Some (Div [H4 "% Waste Processed"; P [Fixed 1 pct; Lit "%"]])) /\
  (forall df selected_district p,
     DropdownApp.derive df selected_district = Ok p ->
     exists row sw_gen sw_proc pct,
       DropdownApp.iloc0 (DropdownApp.select df selected_district) = Ok row /\
       DropdownApp.col row "Sum of SW_Generation (TPD)" ≫= safe = Ok sw_gen /\
       DropdownApp.col row "Sum of SW_Processed_ (TPD)" ≫= safe = Ok sw_proc /\
       processed_percent sw_proc sw_gen = Ok pct /\
       DropdownApp.kpi_cards p !! 2%nat =
         Some (Div [H4 "% Waste Processed"; P [Fixed 1 pct; Lit "%"]])).
Proof.
  split_and!.
  - apply percent_gt.
  - intros sw_proc sw_gen H. by apply percent_not_gt, le_zero_not_gt.
  - apply percent_returns.
  - intros sw_proc. by apply percent_not_gt.
  - apply map_percent_card.
  - apply dropdown_percent_card.
Qed.

Lemma percent_processed_formula_witness :
  processed_percent 120 100 = Ok (120 / 100 * 100)%float /\
  processed_percent 120 (-3) = Ok 0%float /\
  processed_percent 120 0 = Ok 0%float.
Proof.
  destruct percent_processed_formula as (Hgt & Hle & _ & Hzero & _).
  split_and!.
  - apply Hgt. vm_compute. reflexivity.
  - apply Hle. vm_compute. reflexivity.
  - apply Hzero.
Defined.

(** C2 (as amended): percent processed is 0 whenever generated is at most
    0, and also whenever processed is zero; when generated is positive and
    processed is at least zero (and they are not both infinite) it is at
    least zero. *)
Theorem percent_zero_or_nonneg (sw_proc sw_gen : float) :
  exists pct,
    processed_percent sw_proc sw_gen = Ok pct /\
    (Py.le sw_gen 0%float = true -> pct = 0%float) /\
    (Py.gt sw_gen 0%float = true -> Py.eq sw_proc 0%float = true ->
       Py.eq pct 0%float = true) /\
    (Py.gt sw_gen 0%float = true -> Py.le 0%float sw_proc = true ->
       PrimFloat.is_infinity sw_proc && PrimFloat.is_infinity sw_gen = false ->
       Py.le 0%float pct = true).
Proof.
  destruct (Py.gt sw_gen 0%float) eqn:Hgt.
  - exists (sw_proc / sw_gen * 100)%float.
    destruct (gt_zero_pos _ Hgt) as [Hpos Hnz].
    split_and!; [by apply percent_gt| |intros _|intros _].
    + intros Hle. apply le_zero_not_gt in Hle. congruence.
    + intros (s & Es)%eq_zero_sf. apply eq_zero_sf.
      rewrite FloatAxioms.mul_spec, FloatAxioms.div_spec, Es, sf_100.
      destruct (Prim2SF sw_gen) as [sg|sg| |sg mg eg]; simpl in *; try done; eauto.
      by edestruct Hnz.
    + intros Hp Hinf. apply le_zero_nonneg.
      rewrite FloatAxioms.mul_spec, FloatAxioms.div_spec, sf_100.
      apply SFmul_nonneg, SFdiv_nonneg; try done.
      * by apply le_zero_nonneg.
      * intros sx sy Hx Hy.
        by rewrite (is_infinity_sf _ _ Hx), (is_infinity_sf _ _ Hy) in Hinf.
  - exists 0%float. split_and!; [by apply percent_not_gt|done..].
Qed.

Lemma percent_zero_or_nonneg_witness :
  exists pct, processed_percent 50 200 = Ok pct /\ Py.le 0%float pct = true.
Proof.
  destruct (percent_zero_or_nonneg 50 200) as (pct & E & _ & _ & H).
  exists pct. split; [exact E|]. apply H; vm_compute; reflexivity.
Defined.

(** C2 as stated fails: with generated 100 and processed 0 the percentage
    is 0 although generated is positive (the "Sagar" row of the sample
    table shows it on its card); and a negative processed figure gives a
    negative percentage. *)
Lemma percent_zero_with_positive_generated :
  processed_percent 0 100 = Ok 0%float /\
  Py.le 100 0 = false /\
  (exists p, MapDashboard.update_dashboard Py.ascii_methods sample_df (click "Sagar") = Ok p /\
             MapDashboard.kpi_cards p !! 2%nat =
               Some (Div [H4 "% Waste Processed"; P [Fixed 1 0; Lit "%"]])) /\
  processed_percent (-5) 100 = Ok (-5)%float /\
  Py.lt (-5) 0 = true.
Proof.
  split_and!; try (by vm_compute).
  eexists. split; by vm_compute.
Qed.

End PercentProcessed.

(** ** The "other" component of the waste composition (map-click dashboard) *)

Section WasteComposition.

Import MapDashboard.

Lemma max_zero_nonneg x : Py.le 0%float (Py.max 0%float x) = true.
Proof.
  unfold Py.max. destruct (Py.gt x 0%float) eqn:H.
  - by apply gt_le_zero.
  - reflexivity.
Qed.

Lemma div_365 x : Py.div x 365%float = Ok (x / 365)%float.
Proof. reflexivity. Qed.

(** C4: for every row the callback renders, the waste-composition pie has
    the four values plastic, construction and demolition, e-waste per day
    (the annual figure divided by 365) and "other", where other is
    [max(0, generated - (plastic + C&D + e-waste / 365))]; other is at least
    zero. *)
Theorem other_component_nonneg (district_name : string) (row : district_row)
    (p : payload) :
  render district_name row = Ok p ->
  exists sw_gen pw cd ew_tpa other_value,
    safe (get row "Sum of SW_Generation (TPD)" (PyFloat 0)) = Ok sw_gen /\
    safe (get row "Sum of Estimated PW Generation in TPD" (PyFloat 0)) = Ok pw /\
    safe (get row "Sum of C&D Waste Generation in TPD - 2025" (PyFloat 0)) = Ok cd /\
    safe (get row "Sum of e-waste Generation (TPA)" (PyFloat 0)) = Ok ew_tpa /\
    traces (waste_comp_pie p) =
      [Pie [ [Lit "Plastic Waste: "; Fixed 2 pw; Lit " TPD"];
             [Lit "C&D: "; Fixed 2 cd; Lit " TPD"];
             [Lit "E-waste: "; Fixed 2 (ew_tpa / 365)%float; Lit " TPD"];
             [Lit "Other: "; Fixed 2 other_value; Lit " TPD"] ]
           [pw; cd; (ew_tpa / 365)%float; other_value]] /\
    other_value = Py.max 0%float (sw_gen - (pw + cd + ew_tpa / 365))%float /\
    Py.le 0%float other_value = true.
Proof.
  intros H. unfold render in H. bind_inv H. injection H as <-.
  match goal with
  | E : Py.div _ _ = Ok _ |- _ => rewrite div_365 in E; injection E as <-
  end.
  match goal with
  | Eg : safe (get row "Sum of SW_Generation (TPD)" _) = Ok ?g,
    Ew : safe (get row "Sum of Estimated PW Generation in TPD" _) = Ok ?w,
    Ec : safe (get row "Sum of C&D Waste Generation in TPD - 2025" _) = Ok ?c,
    Ee : safe (get row "Sum of e-waste Generation (TPA)" _) = Ok ?e |- _ =>
      exists g, w, c, e, (other g w c (e / 365)%float)
  end.
  split_and!; try done. apply max_zero_nonneg.
Qed.

Lemma other_component_nonneg_witness :
  exists p,
    render "Indore" (sample_row "Indore " (PyFloat 0.9) (PyFloat 0.2)) = Ok p /\
    exists other_value,
      traces (waste_comp_pie p) =
        [Pie [ [Lit "Plastic Waste: "; Fixed 2 10; Lit " TPD"];
               [Lit "C&D: "; Fixed 2 20; Lit " TPD"];
               [Lit "E-waste: "; Fixed 2 2; Lit " TPD"];
               [Lit "Other: "; Fixed 2 other_value; Lit " TPD"] ]
             [10; 20; 2; other_value]%float] /\
      Py.le 0%float other_value = true.
Proof.
  assert (exists p, render "Indore" (sample_row "Indore " (PyFloat 0.9) (PyFloat 0.2)) = Ok p)
    as [p E] by (eexists; vm_compute; reflexivity).
  exists p. split; [exact E|].
  destruct (other_component_nonneg _ _ _ E)
    as (g & w & c & e & o & Eg & Ew & Ec & Ee & Ht & _ & Hle).
  vm_compute in Ew, Ec, Ee.
  injection Ew as <-. injection Ec as <-. injection Ee as <-.
  exists o. split; [exact Ht | exact Hle].
Defined.

End WasteComposition.

(** ** Missing cells, text and dates *)

Section SafeDefaults.

(** C5 (as amended): [safe] turns a missing value ([None] or NaN) into 0.0
    and passes a number through unchanged; text that [float] reads as a
    number becomes that number, any other text makes [safe] raise
    [ValueError], and a date or time value makes it raise [TypeError].
    Apart from text, a value [safe] accepts never comes out as NaN.  A
    column absent from the row also reads as 0.0 in the map-click dashboard.
    The ratios guard their denominators: percent processed never raises and
    is 0 when generated is 0 (as it is when the generated cell is missing),
    and the division by 365 never raises. *)
Theorem safe_defaults :
  safe PyNone = Ok 0%float /\
  (forall x, PrimFloat.is_nan x = true -> safe (PyFloat x) = Ok 0%float) /\
  (forall x, PrimFloat.is_nan x = false -> safe (PyFloat x) = Ok x) /\
  (forall s x, safe (PyText s (Some x)) = Ok x) /\
  (forall s, safe (PyText s None) = Raise ValueError) /\
  (forall s, safe (PyDatetime s) = Raise TypeError) /\
  (forall val x,
     (forall s parsed, val <> PyText s parsed) ->
     safe val = Ok x -> PrimFloat.is_nan x = false) /\
  (forall row c,
     columns row !! c = None ->
     safe (MapDashboard.get row c (PyFloat 0)) = Ok 0%float /\
     safe (MapDashboard.get row c PyNone) = Ok 0%float) /\
  (forall sw_proc sw_gen, returns (processed_percent sw_proc sw_gen)) /\
  (forall sw_proc, processed_percent sw_proc 0%float = Ok 0%float) /\
  (forall x, returns (Py.div x 365%float)).
Proof.
  split_and!; try done.
  - intros x H. unfold safe. simpl. by rewrite H.
  - intros x H. unfold safe. simpl. by rewrite H.
  - apply safe_not_nan.
  - intros row c H. unfold MapDashboard.get. by rewrite H.
  - apply percent_returns.
  - intros x. by eexists.
Qed.

Lemma safe_defaults_witness :
  safe (PyFloat nan) = Ok 0%float /\
  safe (PyFloat 12.5) = Ok 12.5%float /\
  safe (PyText "12.5" (Some 12.5%float)) = Ok 12.5%float /\
  safe (MapDashboard.get (sample_row "Bhopal" PyNone PyNone) "No such column" (PyFloat 0))
    = Ok 0%float.
Proof.
  destruct safe_defaults as (_ & Hnan & Hnum & Htext & _ & _ & _ & Hcol & _).
  split_and!.
  - apply Hnan. vm_compute. reflexivity.
  - apply Hnum. vm_compute. reflexivity.
  - apply Htext.
  - apply Hcol. vm_compute. reflexivity.
Defined.

(** C5 as stated fails: on a cell holding text that is not a number [safe]
    raises instead of giving 0.0, and the map-click callback raises with it
    (the "Ujjain" row of the sample table holds the text "abc" as its
    generated figure). *)
Lemma safe_raises_on_text :
  safe (PyText "abc" None) = Raise ValueError /\
  MapDashboard.update_dashboard Py.ascii_methods sample_df (click "Ujjain") = Raise ValueError.
Proof. split; by vm_compute. Qed.

End SafeDefaults.

(** ** Name matching (map-click dashboard) *)

Section NameMatching.

Local Open Scope nat_scope.

Lemma isspace_not_upper c : Py.isspace c = true -> Py.isupper c = false.
Proof. destruct c as [[] [] [] [] [] [] [] []]; by vm_compute. Qed.

Lemma lower_char_space c : Py.isspace c = true -> Py.lower_char c = c.
Proof. intros H. unfold Py.lower_char. by rewrite isspace_not_upper. Qed.

Lemma lower_all_space s : all_space s = true -> Py.lower s = s.
Proof.
  induction s as [|c s IH]; simpl; [done|].
  intros [Hc Hs]%andb_true_iff. by rewrite lower_char_space, IH.
Qed.

Lemma lower_app a b : Py.lower (a +:+ b) = Py.lower a +:+ Py.lower b.
Proof. induction a as [|c a IH]; simpl; [done|]. by rewrite IH. Qed.

Lemma lower_char_of_upper c d :
  Py.isupper c = true -> nat_of_ascii d = nat_of_ascii c + 32 ->
  Py.lower_char c = d /\ Py.lower_char d = d.
Proof.
  unfold Py.lower_char. intros Hc Hd. rewrite Hc, <- Hd, ascii_nat_embedding.
  split; [done|].
  unfold Py.isupper in *. rewrite Hd.
  apply andb_true_iff in Hc as [H1%Nat.leb_le H2%Nat.leb_le].
  replace (nat_of_ascii c + 32 <=? 90) with false; [by rewrite andb_false_r|].
  symmetry. apply Nat.leb_gt. lia.
Qed.

Lemma case_variant_lower c d :
  case_variant c d = true -> Py.lower_char c = Py.lower_char d.
Proof.
  unfold case_variant.
  intros [[H|[Hc Hd]%andb_true_iff]%orb_true_iff|[Hd Hc]%andb_true_iff]%orb_true_iff.
  - by apply Ascii.eqb_eq in H as ->.
  - apply Nat.eqb_eq in Hd. destruct (lower_char_of_upper c d Hc Hd). congruence.
  - apply Nat.eqb_eq in Hc. destruct (lower_char_of_upper d c Hd Hc). congruence.
Qed.

Lemma same_letters_lower a b : same_letters a b = true -> Py.lower a = Py.lower b.
Proof.
  revert b. induction a as [|c a IH]; intros [|d b]; simpl; try done.
  intros [Hc Hs]%andb_true_iff. by rewrite (case_variant_lower c d), (IH b).
Qed.

Lemma lstrip_all_space s : all_space s = true -> Py.lstrip s = "".
Proof.
  induction s as [|c s IH]; simpl; [done|].
  intros [Hc Hs]%andb_true_iff. rewrite Hc. auto.
Qed.

Lemma rstrip_all_space s : all_space s = true -> Py.rstrip s = "".
Proof.
  induction s as [|c s IH]; simpl; [done|].
  intros [Hc Hs]%andb_true_iff. by rewrite IH, Hc.
Qed.

Lemma lstrip_app a r :
  Py.lstrip (a +:+ r) = if all_space a then Py.lstrip r else Py.lstrip a +:+ r.
Proof.
  induction a as [|c a IH]; simpl; [done|].
  by destruct (Py.isspace c).
Qed.

Lemma rstrip_app_space x r : all_space r = true -> Py.rstrip (x +:+ r) = Py.rstrip x.
Proof.
  intros Hr. induction x as [|c x IH]; simpl.
  - by apply rstrip_all_space.
  - by rewrite IH.
Qed.

(** Whitespace around a name does not survive [strip]. *)
Lemma strip_pad l a r :
  all_space l = true -> all_space r = true ->
  Py.strip (l +:+ a +:+ r) = Py.strip a.
Proof.
  intros Hl Hr. unfold Py.strip. rewrite lstrip_app, Hl, lstrip_app.
  destruct (all_space a) eqn:Ha.
  - by rewrite (lstrip_all_space r), (lstrip_all_space a).
  - by apply rstrip_app_space.
Qed.

Lemma isspace_lower_char c : Py.isspace (Py.lower_char c) = Py.isspace c.
Proof. destruct c as [[] [] [] [] [] [] [] []]; by vm_compute. Qed.

Lemma lstrip_lower s : Py.lstrip (Py.lower s) = Py.lower (Py.lstrip s).
Proof.
  induction s as [|c s IH]; simpl; [done|].
  rewrite isspace_lower_char. by destruct (Py.isspace c).
Qed.

Lemma rstrip_lower s : Py.rstrip (Py.lower s) = Py.lower (Py.rstrip s).
Proof.
  induction s as [|c s IH]; simpl; [done|].
  rewrite IH. destruct (Py.rstrip s); simpl; [|done].
  rewrite isspace_lower_char. by destruct (Py.isspace c).
Qed.

(** On ASCII text, lowering a name and trimming it can be done in either
    order. *)
Lemma ascii_lower_keeps_whitespace : lower_keeps_whitespace Py.ascii_methods.
Proof. intros s. simpl. unfold Py.strip. by rewrite lstrip_lower, rstrip_lower. Qed.

(** On ASCII text, two names made of the same letters up to case, each
    padded with whitespace, are the same name. *)
Lemma ascii_variants_same_name l1 a r1 l2 b r2 :
  all_space l1 = true -> all_space r1 = true ->
  all_space l2 = true -> all_space r2 = true ->
  same_letters a b = true ->
  same_name Py.ascii_methods (l1 +:+ a +:+ r1) (l2 +:+ b +:+ r2).
Proof.
  intros Hl1 Hr1 Hl2 Hr2 Hab. unfold same_name. simpl.
  rewrite !strip_pad by done.
  pose proof ascii_lower_keeps_whitespace as Hc. unfold lower_keeps_whitespace in Hc.
  simpl in Hc. by rewrite <- !Hc, (same_letters_lower a b Hab).
Qed.

Section AnyStringMethods.

Variable py : Py.str_methods.
Hypothesis lower_strip : lower_keeps_whitespace py.



End AnyStringMethods.



(** The spec's example, and a padded upper-case spelling, find the "Bhopal"
    row of the sample table. *)
Example bhopal_spellings :
  same_name Py.ascii_methods " Bhopal " "bhopal" /\
  same_name Py.ascii_methods "  BHOPAL" "bhopal" /\
  List.map District (MapDashboard.match_row Py.ascii_methods sample_df " Bhopal ") = ["Bhopal"] /\
  List.map District (MapDashboard.match_row Py.ascii_methods sample_df "bhopal") = ["Bhopal"].
Proof.
  split_and!.
  - by apply (ascii_variants_same_name " " "Bhopal" " " "" "bhopal" "").
  - by apply (ascii_variants_same_name "  " "BHOPAL" "" "" "bhopal" "").
  - by vm_compute.
  - by vm_compute.
Qed.

End NameMatching.

(** ** The map-click callback: guard, lookup and no-data payload *)

Section MapCallback.

Import MapDashboard.

Lemma update_dashboard_clicked py df clickData name :
  clicked clickData name ->
  update_dashboard py df clickData =
    match match_row py df name with
    | [] => Ok no_data
    | row :: _ => render name row
    end.
Proof.
  intros (kv & point & rest & -> & Hp & Hl).
  assert (truthy (ODict kv) = true) as Ht by (by destruct kv).
  unfold update_dashboard, unselected, contains.
  rewrite Ht, Hp. simpl. rewrite Hp. simpl. by rewrite Hl.
Qed.

Lemma match_row_unknown py df name :
  unknown_district py df name -> match_row py df name = [].
Proof.
  unfold unknown_district, normalised, match_row.
  induction 1 as [|r df Hr _ IH]; simpl; [done|].
  by apply String.eqb_neq in Hr as ->.
Qed.

Lemma no_data_not_placeholder : no_data <> placeholder.
Proof. done. Qed.

Lemma state_after_last {I} (initial : I) (earlier : list I) (e : I) :
  state_after initial (earlier ++ [e]) = e.
Proof. unfold state_after. by rewrite fold_left_app. Qed.

(** C6: whatever [str.lower] and [str.strip] do, a click on a district
    whose lowered and trimmed name equals that of no row of the table
    returns the "No data for selected district" payload (it does not
    raise), whatever was selected before; that payload differs from the
    placeholder shown when nothing is selected. *)
Theorem unknown_district_no_data (py : Py.str_methods) (df : list district_row)
    (clickData : pyobj) (name : string) :
  clicked clickData name ->
  unknown_district py df name ->
  update_dashboard py df clickData = Ok no_data /\
  (forall earlier,
     update_dashboard py df (state_after initial_clickData (earlier ++ [clickData]))
       = Ok no_data) /\
  kpi_cards no_data = [Div [Str "No data for selected district"]] /\
  no_data <> placeholder.
Proof.
  intros Hc Hu.
  assert (update_dashboard py df clickData = Ok no_data) as H.
  { by rewrite (update_dashboard_clicked _ _ _ _ Hc), match_row_unknown. }
  split_and!; try done.
  intros earlier. by rewrite state_after_last.
Qed.

Lemma unknown_district_no_data_witness :
  update_dashboard Py.ascii_methods sample_df (click "Dewas") = Ok no_data /\
  (forall earlier,
     update_dashboard Py.ascii_methods sample_df
       (state_after initial_clickData (earlier ++ [click "Dewas"]))
       = Ok no_data) /\
  kpi_cards no_data = [Div [Str "No data for selected district"]] /\
  no_data <> placeholder.
Proof.
  apply (unknown_district_no_data Py.ascii_methods sample_df (click "Dewas") "Dewas").
  - do 3 eexists. split_and!; reflexivity.
  - repeat constructor; by vm_compute.
Defined.

Lemma unselected_iff clickData :
  unselected clickData = Ok true <->
  truthy clickData = false \/ contains "points" clickData = Ok false.
Proof.
  unfold unselected. destruct (truthy clickData); simpl.
  - destruct (contains "points" clickData) as [[]|e]; simpl;
      (split; [intros ?|intros [?|?]]); try done; auto.
  - by split; [left|].
Qed.

Lemma unselected_placeholder py df clickData :
  unselected clickData = Ok true -> update_dashboard py df clickData = Ok placeholder.
Proof. intros H. unfold update_dashboard. by rewrite H. Qed.

Lemma unselected_dict kv :
  unselected (ODict kv) = Ok true <-> kv = [] \/ assoc "points" kv = None.
Proof.
  rewrite unselected_iff. simpl. destruct kv as [|kv0 kv']; [by split; left|].
  destruct (assoc "points" (kv0 :: kv')); split; intros [|]; try done; by right.
Qed.

(** C10: the guard takes the placeholder branch exactly when [clickData] is
    falsy (absent, or an empty dictionary) or lacks the key "points"; a
    [clickData] whose "points" is the empty list passes the guard, and the
    access [clickData["points"][0]] then raises [IndexError]; so whenever
    the callback returns on a [clickData] with a "points" list past the
    guard, that list is non-empty. *)
Theorem empty_points_out_of_bounds :
  (forall clickData,
     unselected clickData = Ok true <->
     truthy clickData = false \/ contains "points" clickData = Ok false) /\
  unselected ONone = Ok true /\
  (forall kv, unselected (ODict kv) = Ok true <-> kv = [] \/ assoc "points" kv = None) /\
  (forall py df clickData,
     unselected clickData = Ok true -> update_dashboard py df clickData = Ok placeholder) /\
  (forall py df kv,
     assoc "points" kv = Some (OList []) ->
     unselected (ODict kv) = Ok false /\
     update_dashboard py df (ODict kv) = Raise IndexError) /\
  (forall py df kv l p,
     assoc "points" kv = Some (OList l) ->
     update_dashboard py df (ODict kv) = Ok p -> l <> []).
Proof.
  assert (forall py df kv,
            assoc "points" kv = Some (OList []) ->
            unselected (ODict kv) = Ok false /\
            update_dashboard py df (ODict kv) = Raise IndexError) as Hempty.
  { intros py df kv H.
    assert (truthy (ODict kv) = true) as Ht by (by destruct kv).
    unfold update_dashboard, unselected, contains.
    rewrite Ht, H. simpl. by rewrite H. }
  split_and!; try done.
  - apply unselected_iff.
  - apply unselected_dict.
  - apply unselected_placeholder.
  - intros py df kv l p Hl Hp ->. destruct (Hempty py df kv Hl) as [_ E]. congruence.
Qed.

Lemma empty_points_out_of_bounds_witness :
  unselected (ODict [("points", OList [])]) = Ok false /\
  update_dashboard Py.ascii_methods sample_df (ODict [("points", OList [])]) = Raise IndexError.
Proof.
  destruct empty_points_out_of_bounds as (_ & _ & _ & _ & H & _).
  apply H. reflexivity.
Defined.

End MapCallback.

(** ** The dropdown callback: the catch-all handler *)

Section DropdownCallback.

Import DropdownApp.

Lemma derive_unmatched df selected_district :
  select df selected_district = [] -> derive df selected_district = Raise IndexError.
Proof. intros H. unfold derive. by rewrite H. Qed.

Lemma iloc0_Raise {A} (rows : list A) e : iloc0 rows = Raise e -> e = IndexError.
Proof. destruct rows; [by intros [= <-] | done]. Qed.

Lemma safe_Raise val e : safe val = Raise e -> e = ValueError \/ e = TypeError.
Proof.
  unfold safe. destruct val as [|x|s [x|]|s]; simpl; try done.
  - by destruct (PrimFloat.is_nan x).
  - intros [= <-]. by left.
  - intros [= <-]. by right.
Qed.

Lemma col_safe_Raise row c e :
  col row c ≫= safe = Raise e -> e = KeyError c \/ e = ValueError \/ e = TypeError.
Proof.
  unfold col. destruct (columns row !! c) as [v|]; simpl.
  - right. by eapply safe_Raise.
  - left. congruence.
Qed.

Lemma int_of_float_Raise x e :
  Py.int_of_float x = Raise e -> e = OverflowError \/ e = ValueError.
Proof.
  unfold Py.int_of_float. destruct (Prim2SF x); intros [= <-]; auto.
Qed.

Lemma percent_not_Raise sw_proc sw_gen e :
  processed_percent sw_proc sw_gen <> Raise e.
Proof. destruct (percent_returns sw_proc sw_gen) as [pct ->]. done. Qed.

(** The exceptions the derivation can raise: no row for the selection, an
    absent column, text that is not a number, a date or time value, a
    population that is NaN or infinite.  A division by zero is not among
    them. *)
Lemma derive_Raise df selected_district e :
  derive df selected_district = Raise e ->
  e = IndexError \/ (exists c, e = KeyError c) \/ e = ValueError \/ e = TypeError \/
  e = OverflowError.
Proof.
  intros H. unfold derive in H.
  apply bind_Raise in H as [H|(row & _ & H)]; [left; by eapply iloc0_Raise|].
  repeat
    (apply bind_Raise in H as [H|(? & _ & H)];
     [ first
         [ apply col_safe_Raise in H as [->|[->| ->]]; by eauto 6
         | by apply percent_not_Raise in H
         | apply int_of_float_Raise in H as [->| ->]; by eauto 6 ]
     | ]).
  done.
Qed.

(** The first cell the derivation reads is the census population: when it
    cannot be read, that is the exception raised. *)
Lemma derive_census_Raise df selected_district row rest e :
  select df selected_district = row :: rest ->
  col row "Sum of Census 2011 Population" ≫= safe = Raise e ->
  derive df selected_district = Raise e.
Proof. intros Hs Hc. unfold derive. rewrite Hs. simpl. by rewrite Hc. Qed.

Lemma update_dashboard_Raise df selected_district e :
  derive df selected_district = Raise e ->
  update_dashboard df selected_district =
    {| stdout := [CallbackError e]; returned := error_payload |}.
Proof. intros H. unfold update_dashboard. by rewrite H. Qed.

(** C8: the dropdown callback always returns.  Either the derivation
    returns a payload, which the callback returns having printed nothing,
    or the derivation raises an exception, which the callback prints before
    returning the error payload: an "Error loading data" card with an empty
    figure and empty lists.  The exceptions that do arise are an
    [IndexError], a [KeyError], a [ValueError], a [TypeError] or an
    [OverflowError]; in particular a selection that matches no row is
    caught as an [IndexError], a selected row without the census column as
    a [KeyError], census text that is not a number as a [ValueError] and a
    census cell holding a date or time as a [TypeError]. *)
Theorem dropdown_catches_every_exception (df : list district_row)
    (selected_district : option string) :
  ((exists p,
      derive df selected_district = Ok p /\
      update_dashboard df selected_district = {| stdout := []; returned := p |}) \/
   (exists e,
      derive df selected_district = Raise e /\
      update_dashboard df selected_district =
        {| stdout := [CallbackError e]; returned := error_payload |} /\
      (e = IndexError \/ (exists c, e = KeyError c) \/ e = ValueError \/
       e = TypeError \/ e = OverflowError))) /\
  (select df selected_district = [] ->
     update_dashboard df selected_district =
       {| stdout := [CallbackError IndexError]; returned := error_payload |}) /\
  (forall row rest,
     select df selected_district = row :: rest ->
     (columns row !! "Sum of Census 2011 Population" = None ->
        update_dashboard df selected_district =
          {| stdout := [CallbackError (KeyError "Sum of Census 2011 Population")];
             returned := error_payload |}) /\
     (forall s,
        columns row !! "Sum of Census 2011 Population" = Some (PyText s None) ->
        update_dashboard df selected_district =
          {| stdout := [CallbackError ValueError]; returned := error_payload |}) /\
     (forall s,
        columns row !! "Sum of Census 2011 Population" = Some (PyDatetime s) ->
        update_dashboard df selected_district =
          {| stdout := [CallbackError TypeError]; returned := error_payload |})) /\
  kpi_cards error_payload = [Div [Str "Error loading data"]] /\
  traces (population_forecast error_payload) = [] /\
  title (population_forecast error_payload) = None /\
  waste_bar_comparison error_payload = [] /\
  pie_comparison error_payload = [].
Proof.
  split_and!; try done.
  - destruct (derive df selected_district) as [p|e] eqn:H.
    + left. exists p. split; [done|]. unfold update_dashboard. by rewrite H.
    + right. exists e. split_and!; [done| |by eapply derive_Raise].
      by apply update_dashboard_Raise.
  - intros Hs. by apply update_dashboard_Raise, derive_unmatched.
  - intros row rest Hs. split_and!.
    + intros Hc. eapply update_dashboard_Raise, derive_census_Raise; [done|].
      unfold col. by rewrite Hc.
    + intros s Hc. eapply update_dashboard_Raise, derive_census_Raise; [done|].
      unfold col. by rewrite Hc.
    + intros s Hc. eapply update_dashboard_Raise, derive_census_Raise; [done|].
      unfold col. by rewrite Hc.
Qed.

Lemma dropdown_catches_every_exception_witness :
  update_dashboard sample_df (Some "Dewas") =
    {| stdout := [CallbackError IndexError]; returned := error_payload |} /\
  update_dashboard
    [{| District := "Dewas";
        columns := {["Sum of Census 2011 Population" := PyDatetime "2011-03-01 00:00:00"]} |}]
    (Some "Dewas") =
    {| stdout := [CallbackError TypeError]; returned := error_payload |}.
Proof.
  split.
  - exact (proj1 (proj2 (dropdown_catches_every_exception sample_df (Some "Dewas"))) eq_refl).
  - exact (proj2 (proj2 (proj1 (proj2 (proj2
             (dropdown_catches_every_exception
                [{| District := "Dewas";
                    columns := {["Sum of Census 2011 Population"
                                   := PyDatetime "2011-03-01 00:00:00"]} |}]
                (Some "Dewas")))) _ _ eq_refl)) _ eq_refl).
Defined.

(** A generated figure that is text but not a number is caught further
    down the derivation, as a [ValueError]. *)
Example dropdown_catches_text :
  update_dashboard sample_df (Some "Ujjain") =
    {| stdout := [CallbackError ValueError]; returned := error_payload |}.
Proof. by vm_compute. Qed.

End DropdownCallback.

(** ** Initial selection of the two dashboards *)

Section InitialSelection.

(** C9 (as amended): the map-click dashboard starts unselected ([clickData]
    is unset) and, while unselected, returns the placeholder payload: a
    prompt and two figures without data.  The dropdown dashboard starts
    with the first district of the table selected; when its selection is
    cleared it prints an [IndexError] and returns the error payload.  In
    both, the state is the last selection event, or the initial one when
    there was none. *)
Theorem initial_selection_states :
  MapDashboard_selection_of MapDashboard.initial_clickData = Ok Unselected /\
  (forall py df,
     MapDashboard.update_dashboard py df (state_after MapDashboard.initial_clickData [])
       = Ok MapDashboard.placeholder) /\
  (forall py df clickData,
     MapDashboard_selection_of clickData = Ok Unselected ->
     MapDashboard.update_dashboard py df clickData = Ok MapDashboard.placeholder) /\
  MapDashboard.kpi_cards MapDashboard.placeholder
    = [Div [Str "Click a district on the map"]] /\
  traces (MapDashboard.population_forecast MapDashboard.placeholder) = [] /\
  MapDashboard.current_bar_pie MapDashboard.placeholder = [] /\
  traces (MapDashboard.waste_comp_pie MapDashboard.placeholder) = [] /\
  (forall row df,
     DropdownApp_selection_of <$> DropdownApp.initial_value (row :: df)
       = Ok (Selected (District row))) /\
  (forall df,
     DropdownApp.update_dashboard df None =
       {| DropdownApp.stdout := [DropdownApp.CallbackError IndexError];
          DropdownApp.returned := DropdownApp.error_payload |}) /\
  (forall I (initial : I), state_after initial [] = initial) /\
  (forall I (initial : I) earlier e, state_after initial (earlier ++ [e]) = e).
Proof.
  split_and!; try done.
  - intros py df clickData H. apply unselected_placeholder.
    unfold MapDashboard_selection_of in H.
    destruct (MapDashboard.unselected clickData) as [[]|e]; simpl in H; try done.
    bind_inv H. done.
  - intros I initial earlier e. apply state_after_last.
Qed.

Lemma initial_selection_states_witness :
  MapDashboard.update_dashboard Py.ascii_methods sample_df (ODict [("curveNumber", ONum 0)])
    = Ok MapDashboard.placeholder.
Proof.
  destruct initial_selection_states as (_ & _ & H & _).
  apply H. vm_compute. reflexivity.
Defined.

(** C9 as stated fails for the dropdown dashboard: on the sample table it
    starts with "Bhopal" selected, not unselected, and with the selection
    cleared it returns the error payload, whose card reads "Error loading
    data" and is no prompt. *)
Lemma dropdown_starts_selected :
  DropdownApp_selection_of <$> DropdownApp.initial_value sample_df
    = Ok (Selected "Bhopal") /\
  DropdownApp_selection_of None = Unselected /\
  DropdownApp.returned (DropdownApp.update_dashboard sample_df None)
    = DropdownApp.error_payload /\
  DropdownApp.kpi_cards (DropdownApp.returned (DropdownApp.update_dashboard sample_df None))
    = [Div [Str "Error loading data"]].
Proof. split_and!; by vm_compute. Qed.

End InitialSelection.

(** * Further properties of the code *)

(** ** The boundary file's district names *)

Section DistrictNames.

Import MapLoad.

Lemma comprehension_Ok {A B} (f : A -> result B) (l : list A) (bs : list B) :
  comprehension f l = Ok bs <-> Forall2 (fun a b => f a = Ok b) l bs.
Proof.
  revert bs. induction l as [|a l IH]; intros bs; simpl.
  - split; [intros [= <-]; constructor | by inversion 1].
  - split.
    + intros H. bind_inv H. injection H as <-. constructor; [done|]. by apply IH.
    + inversion 1 as [|? b ? bs' Ha Hl]; subst. rewrite Ha. simpl.
      apply IH in Hl. by rewrite Hl.
Qed.

Lemma comprehension_Raise {A B} (f : A -> result B) (pre : list A) (a : A)
    (post : list A) (e : exn) :
  Forall (fun x => returns (f x)) pre -> f a = Raise e ->
  comprehension f (pre ++ a :: post) = Raise e.
Proof.
  intros Hpre Ha. induction Hpre as [|x pre [b Hx] _ IH]; simpl.
  - by rewrite Ha.
  - by rewrite Hx, IH.
Qed.

(** X1: when the boundary file has a list of features, the district names
    are computed exactly when every feature has [properties] with a
    [Dist_Name]; there is then one name per feature, in the order of the
    features; and the first feature without one makes the computation raise
    that feature's exception. *)
Theorem district_names_per_feature (kv : list (string * pyobj)) (fs : list pyobj) :
  assoc "features" kv = Some (OList fs) ->
  (forall names,
     district_names (ODict kv) = Ok names <->
     Forall2 (fun f name => Dist_Name f = Ok name) fs names) /\
  (forall names, district_names (ODict kv) = Ok names -> length names = length fs) /\
  (forall pre f post e,
     fs = pre ++ f :: post ->
     Forall (fun x => returns (Dist_Name x)) pre ->
     Dist_Name f = Raise e ->
     district_names (ODict kv) = Raise e).
Proof.
  intros Hf.
  assert (district_names (ODict kv) = comprehension Dist_Name fs) as ->.
  { unfold district_names. simpl. by rewrite Hf. }
  split_and!.
  - intros names. apply comprehension_Ok.
  - intros names H%comprehension_Ok. symmetry. by eapply Forall2_length.
  - intros pre f post e -> Hpre He. by apply comprehension_Raise.
Qed.


Lemma district_names_per_feature_witness :
  district_names (ODict sample_geojson) = Ok [OStr "Bhopal"; OStr "Indore"].
Proof.
  destruct (district_names_per_feature sample_geojson
              [sample_feature "Bhopal"; sample_feature "Indore"] eq_refl) as (H & _).
  apply H. repeat constructor.
Defined.

End DistrictNames.

(** ** Which row a click selects *)

Section FirstMatch.

Import MapDashboard.

Lemma match_row_app py df1 df2 name :
  match_row py (df1 ++ df2) name = match_row py df1 name ++ match_row py df2 name.
Proof. unfold match_row. apply List.filter_app. Qed.

Lemma match_row_hit py r df name :
  normalised py (District r) = normalised py name ->
  match_row py (r :: df) name = r :: match_row py df name.
Proof.
  unfold normalised, match_row. intros H. simpl.
  by apply String.eqb_eq in H as ->.
Qed.

Lemma match_row_In py df name r :
  In r (match_row py df name) <->
  In r df /\ normalised py (District r) = normalised py name.
Proof.
  unfold match_row, normalised. rewrite filter_In. by rewrite String.eqb_eq.
Qed.

(** X2: whatever [str.lower] and [str.strip] do, for a click that carries a
    district name the callback renders the first row, in table order, whose
    lowered and trimmed name equals the lowered and trimmed clicked name;
    later rows with the same normalised name are ignored. *)
Theorem map_renders_first_match (py : Py.str_methods) (df pre post : list district_row)
    (r : district_row) (clickData : pyobj) (name : string) :
  clicked clickData name ->
  df = pre ++ r :: post ->
  unknown_district py pre name ->
  normalised py (District r) = normalised py name ->
  update_dashboard py df clickData = render name r.
Proof.
  intros Hc -> Hpre Hr.
  rewrite (update_dashboard_clicked _ _ _ _ Hc), match_row_app.
  by rewrite (match_row_unknown _ _ _ Hpre), (match_row_hit _ _ _ _ Hr).
Qed.

(** X3: whatever [str.lower] and [str.strip] do, a click whose location is
    the name of a row of the table (as the choropleth's locations are)
    always finds a row: the callback renders a row of the table with the
    same normalised name, never the no-data payload. *)
Theorem click_on_table_name_finds_row (py : Py.str_methods) (df : list district_row)
    (r : district_row) (clickData : pyobj) :
  In r df ->
  clicked clickData (District r) ->
  exists r',
    In r' df /\
    normalised py (District r') = normalised py (District r) /\
    update_dashboard py df clickData = render (District r) r' /\
    update_dashboard py df clickData <> Ok no_data.
Proof.
  intros Hin Hc. rewrite (update_dashboard_clicked _ _ _ _ Hc).
  destruct (match_row py df (District r)) as [|r' rest] eqn:E.
  - assert (In r (match_row py df (District r))) as H by (by apply match_row_In).
    by rewrite E in H.
  - exists r'. assert (In r' (match_row py df (District r))) as H by (rewrite E; by left).
    apply match_row_In in H as [? ?]. split_and!; try done.
    intros Hn. unfold render in Hn. bind_inv Hn. done.
Qed.

Lemma map_renders_first_match_witness :
  update_dashboard Py.ascii_methods sample_df (click "INDORE")
    = render "INDORE" (sample_row "Indore " (PyFloat 0.9) (PyFloat 0.2)).
Proof.
  apply (map_renders_first_match Py.ascii_methods sample_df
           [sample_row "Bhopal" (PyFloat 100) (PyFloat 120)]
           [sample_row "Sagar" (PyFloat 100) (PyFloat 0);
            sample_row "Ujjain" (PyText "abc" None) (PyFloat 5)]
           (sample_row "Indore " (PyFloat 0.9) (PyFloat 0.2)) (click "INDORE") "INDORE").
  - do 3 eexists. split_and!; reflexivity.
  - reflexivity.
  - repeat constructor; by vm_compute.
  - by vm_compute.
Defined.

Lemma click_on_table_name_finds_row_witness :
  exists r',
    In r' sample_df /\
    normalised Py.ascii_methods (District r') = normalised Py.ascii_methods "Bhopal" /\
    update_dashboard Py.ascii_methods sample_df (click "Bhopal") = render "Bhopal" r' /\
    update_dashboard Py.ascii_methods sample_df (click "Bhopal") <> Ok no_data.
Proof.
  apply (click_on_table_name_finds_row Py.ascii_methods sample_df
           (sample_row "Bhopal" (PyFloat 100) (PyFloat 120)) (click "Bhopal")).
  - left. reflexivity.
  - do 3 eexists. split_and!; reflexivity.
Defined.

Local Open Scope nat_scope.

Lemma all_space_lower s : all_space (Py.lower s) = all_space s.
Proof. induction s as [|c s IH]; simpl; [done|]. by rewrite isspace_lower_char, IH. Qed.

Lemma lstrip_head s :
  Py.lstrip s = "" \/ exists c t, Py.lstrip s = String c t /\ Py.isspace c = false.
Proof.
  induction s as [|c s IH]; simpl; [by left|].
  destruct (Py.isspace c) eqn:Hc; [done|]. right. by exists c, s.
Qed.

Lemma lstrip_empty s : Py.lstrip s = "" -> all_space s = true.
Proof.
  induction s as [|c s IH]; simpl; [done|].
  destruct (Py.isspace c); [done|]. done.
Qed.

Lemma rstrip_nonspace c t : Py.isspace c = false -> Py.rstrip (String c t) <> "".
Proof. intros Hc. simpl. rewrite Hc. by destruct (Py.rstrip t). Qed.

Lemma strip_empty s : Py.strip s = "" <-> all_space s = true.
Proof.
  unfold Py.strip. split.
  - destruct (lstrip_head s) as [E|(c & t & E & Hc)].
    + intros _. by apply lstrip_empty.
    + rewrite E. intros H. by apply rstrip_nonspace in H.
  - intros H. by rewrite lstrip_all_space.
Qed.

(** X4: on a table without blank names (the load-time filter drops
    them), a click whose location is empty or whitespace only matches no
    row and returns the no-data payload. *)
Theorem blank_click_no_data (df : list district_row) (clickData : pyobj)
    (name : string) :
  Forall (fun r => Py.strip (District r) <> "") df ->
  clicked clickData name ->
  all_space name = true ->
  update_dashboard Py.ascii_methods df clickData = Ok no_data.
Proof.
  intros Hdf Hc Hn. rewrite (update_dashboard_clicked _ _ _ _ Hc), match_row_unknown; [done|].
  unfold unknown_district, normalised. eapply Forall_impl; [exact Hdf|]. simpl.
  intros r Hr E. apply Hr.
  assert (Py.strip (Py.lower name) = "") as En.
  { apply strip_empty. by rewrite all_space_lower. }
  rewrite En in E. apply strip_empty in E. rewrite all_space_lower in E.
  by apply strip_empty.
Qed.

Lemma blank_click_no_data_witness :
  update_dashboard Py.ascii_methods sample_df (click "  ") = Ok no_data.
Proof.
  apply (blank_click_no_data sample_df (click "  ") "  ").
  - repeat constructor; by vm_compute.
  - do 3 eexists. split_and!; reflexivity.
  - reflexivity.
Defined.

End FirstMatch.

(** ** Selection in the dropdown dashboard *)

Section DropdownSelection.

Import DropdownApp DropdownLayout.

Lemma select_In df d r :
  In r (select df (Some d)) <-> In r df /\ District r = d.
Proof. unfold select. rewrite filter_In. by rewrite String.eqb_eq. Qed.

Lemma select_none df d :
  Forall (fun r => District r <> d) df -> select df (Some d) = [].
Proof.
  induction 1 as [|r df Hr _ IH]; simpl in *; [done|].
  by apply String.eqb_neq in Hr as ->.
Qed.

(** X7: the dropdown callback matches names exactly (no case folding, no
    trimming): a selection that equals no row's name gives the error
    payload with an [IndexError] printed, and otherwise the outcome is that
    of the first row with that name alone. *)
Theorem dropdown_matches_exact_name (df pre post : list district_row)
    (r : district_row) (d : string) :
  (Forall (fun r => District r <> d) df ->
   update_dashboard df (Some d) =
     {| stdout := [CallbackError IndexError]; returned := error_payload |}) /\
  (df = pre ++ r :: post ->
   Forall (fun r => District r <> d) pre ->
   District r = d ->
   update_dashboard df (Some d) = update_dashboard [r] (Some d)).
Proof.
  split.
  - intros H. unfold update_dashboard. by rewrite derive_unmatched; [|apply select_none].
  - intros -> Hpre Hr. unfold update_dashboard, derive.
    assert (select (pre ++ r :: post) (Some d) = r :: select post (Some d)) as ->.
    { unfold select. rewrite List.filter_app. fold (select pre (Some d)).
      rewrite (select_none _ _ Hpre). simpl.
      by apply String.eqb_eq in Hr as ->. }
    simpl. by apply String.eqb_eq in Hr as ->.
Qed.

Lemma unique_In l x : In x (unique l) <-> In x l.
Proof.
  induction l as [|y l IH]; simpl; [done|].
  rewrite filter_In, IH, negb_true_iff, String.eqb_neq.
  destruct (String.eqb_spec x y) as [->|Hne]; [tauto|]. split.
  - intros [->|[? ?]]; auto.
  - intros [->|?]; auto.
Qed.

Lemma NoDup_filter' {A} (f : A -> bool) l : List.NoDup l -> List.NoDup (List.filter f l).
Proof.
  induction 1 as [|x l Hx _ IH]; simpl; [constructor|].
  destruct (f x); [|done]. constructor; [|done].
  rewrite filter_In. tauto.
Qed.

Lemma unique_NoDup l : List.NoDup (unique l).
Proof.
  induction l as [|y l IH]; simpl; [constructor|].
  constructor.
  - rewrite filter_In, negb_true_iff, String.eqb_neq. tauto.
  - by apply NoDup_filter'.
Qed.

(** X8: the dropdown offers each district name of the table once, with
    the label equal to the value; every offered value selects at least one
    row; and the initial value is the first option. *)
Theorem dropdown_options_select_rows (df : list district_row) :
  List.NoDup (map value (options df)) /\
  (forall o, In o (options df) -> label o = value o) /\
  (forall d, In d (map value (options df)) <-> exists r, In r df /\ District r = d) /\
  (forall d, In d (map value (options df)) -> select df (Some d) <> []) /\
  (forall v, initial_value df = Ok (Some v) ->
             exists rest, map value (options df) = v :: rest).
Proof.
  assert (map value (options df) = unique (map District df)) as E.
  { unfold options. rewrite map_map. simpl. apply map_id. }
  assert (forall d, In d (map value (options df)) <-> exists r, In r df /\ District r = d) as Hin.
  { intros d. rewrite E, unique_In, in_map_iff.
    split; [intros (r & Hd & Hr)|intros (r & Hr & Hd)]; by exists r. }
  split_and!.
  - rewrite E. apply unique_NoDup.
  - intros o (d & <- & _)%in_map_iff. done.
  - done.
  - intros d (r & Hr & Hd)%Hin Hs.
    assert (In r (select df (Some d))) as H by (by apply select_In).
    by rewrite Hs in H.
  - intros v H. rewrite E. destruct df as [|r df]; [done|].
    simpl in H. injection H as <-. simpl. eauto.
Qed.


Lemma dropdown_matches_exact_name_witness :
  update_dashboard sample_df (Some "bhopal") =
    {| stdout := [CallbackError IndexError]; returned := error_payload |}.
Proof.
  apply (proj1 (dropdown_matches_exact_name sample_df [] [] (sample_row "Bhopal" (PyFloat 100) (PyFloat 120)) "bhopal")).
  repeat constructor; by vm_compute.
Defined.

Lemma dropdown_options_select_rows_witness :
  exists rest, map value (options sample_df) = "Bhopal" :: rest.
Proof.
  destruct (dropdown_options_select_rows sample_df) as (_ & _ & _ & _ & H).
  apply H. reflexivity.
Defined.

End DropdownSelection.

(** ** When the callbacks return *)

Section WhenCallbacksReturn.

Lemma sf_infinity : Prim2SF infinity = S754_infinity false.
Proof. reflexivity. Qed.

Lemma is_infinity_iff x :
  PrimFloat.is_infinity x = true <-> exists s, Prim2SF x = S754_infinity s.
Proof.
  split; [|intros [s Hs]; by eapply is_infinity_sf].
  unfold PrimFloat.is_infinity.
  rewrite FloatAxioms.eqb_spec, FloatAxioms.abs_spec, sf_infinity.
  destruct (Prim2SF x) as [s|s| |s m e]; simpl; try done. eauto.
Qed.

Lemma int_of_float_returns x :
  returns (Py.int_of_float x) <->
  PrimFloat.is_nan x = false /\ PrimFloat.is_infinity x = false.
Proof.
  unfold Py.int_of_float, PrimFloat.is_nan.
  rewrite FloatAxioms.eqb_spec.
  destruct (PrimFloat.is_infinity x) eqn:Hi.
  - apply is_infinity_iff in Hi as [s Hs]. rewrite Hs.
    split; [by intros [? ?]|by intros [? ?]].
  - destruct (Prim2SF x) as [s|s| |s m e] eqn:E.
    + split; [done|]. intros _. by eexists.
    + assert (PrimFloat.is_infinity x = true) by (by eapply is_infinity_sf). congruence.
    + split; [by intros [? ?]|by intros [? ?]].
    + split; [|intros _; by eexists]. intros _. split; [|done].
      unfold SFeqb. by rewrite SFcompare_refl.
Qed.

Lemma safe_returns val : returns (safe val) <-> readable val = true.
Proof.
  destruct val as [|x|s [y|]|s]; unfold safe; simpl.
  - split; [done|]. intros _. by eexists.
  - split; [done|]. intros _. destruct (PrimFloat.is_nan x); by eexists.
  - split; [done|]. intros _. by eexists.
  - split; [by intros [? ?]|done].
  - split; [by intros [? ?]|done].
Qed.

Lemma safe_get_returns row c dflt :
  readable dflt = true ->
  returns (safe (MapDashboard.get row c dflt)) <->
  match columns row !! c with Some v => readable v | None => true end = true.
Proof.
  intros Hd. rewrite safe_returns. unfold MapDashboard.get.
  destruct (columns row !! c) as [v|]; simpl; [done|]. by split.
Qed.

Lemma census_int_returns row x :
  safe (MapDashboard.get row "Sum of Census 2011 Population" (PyFloat 0)) = Ok x ->
  (returns (Py.int_of_float x) <-> population_integral row = true).
Proof.
  intros Hx. rewrite int_of_float_returns. unfold population_integral.
  unfold MapDashboard.get in Hx. rewrite Hx. unfold integral.
  by rewrite andb_true_iff, !negb_true_iff.
Qed.

Section MapReturns.

Import MapDashboard.

Ltac step_safe Hall :=
  match goal with
  | |- context [safe (get ?row ?c ?d)] =>
      let x := fresh "x" in
      let E := fresh "E" in
      assert (returns (safe (get row c d))) as [x E];
      [ apply safe_get_returns; [done|];
        apply (proj1 (forallb_forall _ _) Hall c); simpl; tauto
      | rewrite E; simpl ]
  end.

(** X5: the body of the map-click callback returns a payload exactly
    when every column it reads is absent from the row or holds a cell that
    [safe] reads (an empty cell, a number, or text that [float] reads as a
    number) and the census population, so read, is neither NaN nor
    infinite; when it raises, the exception is a [ValueError] (text that is
    not a number, or a NaN population), a [TypeError] (a date or time
    value) or an [OverflowError] (an infinite population). *)
Theorem map_render_returns_iff (district_name : string) (row : district_row) :
  (returns (render district_name row) <->
   columns_readable row map_columns = true /\ population_integral row = true) /\
  (forall e, render district_name row = Raise e ->
             e = ValueError \/ e = TypeError \/ e = OverflowError).
Proof.
  split; [split|].
  - intros [p H]. unfold render in H. bind_inv H.
    split.
    + unfold columns_readable, map_columns. simpl. rewrite !andb_true_iff.
      split_and!; try done;
        match goal with
        | |- match columns row !! ?c with _ => _ end = true =>
            match goal with
            | E : safe (get row c ?d) = Ok _ |- _ =>
                apply (proj1 (safe_get_returns row c d ltac:(done))); by eexists
            end
        end.
    + match goal with
      | E : safe (get row "Sum of Census 2011 Population" _) = Ok ?x,
        I : Py.int_of_float ?x = Ok _ |- _ =>
          apply (census_int_returns row x E); by eexists
      end.
  - intros [Ht Hf]. unfold render.
    repeat step_safe Ht.
    match goal with
    | E : safe (get row "Sum of Census 2011 Population" _) = Ok ?x |- _ =>
        destruct (proj2 (census_int_returns row x E) Hf) as [n ->]
    end.
    match goal with
    | |- context [processed_percent ?a ?b] =>
        destruct (percent_returns a b) as [pct ->]
    end.
    simpl. by eexists.
  - intros e H. unfold render in H.
    repeat
      (apply bind_Raise in H as [H|(? & _ & H)];
       [ first
           [ apply safe_Raise in H as [->| ->]; by eauto
           | by apply percent_not_Raise in H
           | apply int_of_float_Raise in H as [->| ->]; by eauto
           | by rewrite div_365 in H ]
       | ]).
    done.
Qed.

Lemma map_render_returns_iff_witness :
  returns (render "Bhopal" (sample_row "Bhopal" (PyFloat 100) (PyFloat 120))).
Proof.
  apply (proj1 (map_render_returns_iff "Bhopal" (sample_row "Bhopal" (PyFloat 100) (PyFloat 120)))).
  split; vm_compute; reflexivity.
Defined.

(** Three rows the map-click callback treats differently: a generated
    figure stored as the text "81.5" is rendered; a date in that cell
    raises [TypeError]; a census population stored as the text "NAN" raises
    [ValueError]. *)
Example map_render_cells :
  returns (render "Dewas" (sample_row "Dewas" (PyText "81.5" (Some 81.5%float)) (PyFloat 5))) /\
  render "Dewas" (sample_row "Dewas" (PyDatetime "2011-03-01 00:00:00") (PyFloat 5))
    = Raise TypeError /\
  render "Dewas"
    {| District := "Dewas";
       columns := {["Sum of Census 2011 Population" := PyText "NAN" (Some nan)]} |}
    = Raise ValueError.
Proof.
  split_and!.
  - eexists. vm_compute. reflexivity.
  - by vm_compute.
  - by vm_compute.
Qed.

End MapReturns.

Section DropdownReturns.

Import DropdownApp.

Lemma col_safe_returns row c :
  returns (col row c ≫= safe) <->
  match columns row !! c with Some v => readable v | None => false end = true.
Proof.
  unfold col. destruct (columns row !! c) as [v|]; simpl; [|by split; [intros [? ?]|]].
  apply safe_returns.
Qed.

Lemma census_col_int_returns row x :
  col row "Sum of Census 2011 Population" ≫= safe = Ok x ->
  (returns (Py.int_of_float x) <-> population_integral row = true).
Proof.
  intros Hx. apply census_int_returns. unfold MapDashboard.get, col in *.
  by destruct (columns row !! "Sum of Census 2011 Population").
Qed.

Ltac step_col Hall :=
  match goal with
  | |- context [col ?row ?c ≫= safe] =>
      let x := fresh "x" in
      let E := fresh "E" in
      assert (returns (col row c ≫= safe)) as [x E];
      [ apply col_safe_returns;
        apply (proj1 (forallb_forall _ _) Hall c); simpl; tauto
      | rewrite E; simpl ]
  end.

Lemma derive_returns_iff df selected_district :
  returns (derive df selected_district) <->
  exists row rest,
    select df selected_district = row :: rest /\
    columns_present_readable row dropdown_columns = true /\
    population_integral row = true.
Proof.
  split.
  - intros [p H]. unfold derive in H.
    apply bind_Ok in H as (row & Erow & H).
    destruct (select df selected_district) as [|row' rest]; [done|].
    injection Erow as ->. exists row, rest. split; [done|].
    bind_inv H. split.
    + unfold columns_present_readable, dropdown_columns. simpl. rewrite !andb_true_iff.
      split_and!; try done;
        match goal with
        | |- match columns row !! ?c with _ => _ end = true =>
            apply (proj1 (col_safe_returns row c)); by eexists
        end.
    + match goal with
      | E : col row "Sum of Census 2011 Population" ≫= safe = Ok ?x,
        I : Py.int_of_float ?x = Ok _ |- _ =>
          apply (census_col_int_returns row x E); by eexists
      end.
  - intros (row & rest & Hs & Ht & Hf). unfold derive. rewrite Hs. simpl.
    repeat step_col Ht.
    match goal with
    | E : col row "Sum of Census 2011 Population" ≫= safe = Ok ?x |- _ =>
        destruct (proj2 (census_col_int_returns row x E) Hf) as [n ->]
    end.
    match goal with
    | |- context [processed_percent ?a ?b] =>
        destruct (percent_returns a b) as [pct ->]
    end.
    simpl. by eexists.
Qed.

(** X6: the dropdown callback returns the payload the derivation computes,
    having printed nothing, exactly when the selection matches a row, every
    column it reads is present in the first such row and holds a cell that
    [safe] reads (an empty cell, a number, or text that [float] reads as a
    number), and the census population, so read, is neither NaN nor
    infinite.  In every other case it prints the exception and returns the
    error payload. *)
Theorem dropdown_quiet_iff (df : list district_row) (selected_district : option string) :
  ((exists p,
      derive df selected_district = Ok p /\
      update_dashboard df selected_district = {| stdout := []; returned := p |}) <->
   (exists row rest,
      select df selected_district = row :: rest /\
      columns_present_readable row dropdown_columns = true /\
      population_integral row = true)) /\
  (stdout (update_dashboard df selected_district) = [] <->
   (exists row rest,
      select df selected_district = row :: rest /\
      columns_present_readable row dropdown_columns = true /\
      population_integral row = true)) /\
  (stdout (update_dashboard df selected_district) <> [] ->
   exists e,
     update_dashboard df selected_district =
       {| stdout := [CallbackError e]; returned := error_payload |}).
Proof.
  rewrite <- derive_returns_iff. unfold update_dashboard, returns.
  destruct (derive df selected_district) as [p|e]; simpl; split_and!.
  - split; [intros (q & H & _); by exists q|]. intros [q [= <-]]. by exists p.
  - split; [by exists p|done].
  - done.
  - split; [by intros (q & H & _)|by intros [q H]].
  - split; [done|by intros [q H]].
  - intros _. by exists e.
Qed.

Lemma dropdown_quiet_iff_witness :
  stdout (update_dashboard sample_df (Some "Sagar")) = [].
Proof.
  apply (proj1 (proj2 (dropdown_quiet_iff sample_df (Some "Sagar")))).
  exists (sample_row "Sagar" (PyFloat 100) (PyFloat 0)), [].
  split_and!; vm_compute; reflexivity.
Defined.

End DropdownReturns.

End WhenCallbacksReturn.

(** ** Ordering of binary64 values and the shared axis *)

Section Ordering.

Lemma finite_lt_pos e1 m1 e2 m2 :
  match (match e1 ?= e2 with
         | Eq => Pos.compare_cont Eq m1 m2
         | Lt => Lt
         | Gt => Gt
         end) with Lt => true | _ => false end = true <->
  e1 < e2 \/ (e1 = e2 /\ (m1 < m2)%positive).
Proof.
  change (Pos.compare_cont Eq m1 m2) with (Pos.compare m1 m2).
  destruct (Z.compare_spec e1 e2); destruct (Pos.compare_spec m1 m2);
    split; try done; try lia; intros _; lia.
Qed.

Lemma finite_lt_neg e1 m1 e2 m2 :
  match (match e1 ?= e2 with
         | Eq => CompOpp (Pos.compare_cont Eq m1 m2)
         | Lt => Gt
         | Gt => Lt
         end) with Lt => true | _ => false end = true <->
  e2 < e1 \/ (e1 = e2 /\ (m2 < m1)%positive).
Proof.
  change (Pos.compare_cont Eq m1 m2) with (Pos.compare m1 m2).
  destruct (Z.compare_spec e1 e2); destruct (Pos.compare_spec m1 m2);
    simpl; split; try done; try lia; intros _; lia.
Qed.

Lemma SFltb_trans x y z :
  SFltb x y = true -> SFltb y z = true -> SFltb x z = true.
Proof.
  unfold SFltb.
  destruct x as [sx|sx| |sx mx ex], y as [sy|sy| |sy my ey], z as [sz|sz| |sz mz ez];
    simpl; try done;
    try (destruct sx; try done); try (destruct sy; try done); try (destruct sz; try done).
  - rewrite !finite_lt_neg. lia.
  - rewrite !finite_lt_pos. lia.
Qed.

Lemma lt_trans a b c : Py.lt a b = true -> Py.lt b c = true -> Py.lt a c = true.
Proof. unfold Py.lt. rewrite !FloatAxioms.ltb_spec. apply SFltb_trans. Qed.

Lemma lt_irrefl a : Py.lt a a = false.
Proof.
  unfold Py.lt. rewrite FloatAxioms.ltb_spec. unfold SFltb.
  destruct (Prim2SF a) as [s|s| |s m e] eqn:E; try done.
  - by destruct s.
  - by rewrite SFcompare_refl.
Qed.

Lemma max_step acc b x :
  Py.lt acc x = false -> Py.lt (Py.max acc b) x = false.
Proof.
  intros H. unfold Py.max, Py.gt. fold (Py.lt acc b).
  destruct (Py.lt acc b) eqn:Hab; [|done].
  destruct (Py.lt b x) eqn:Hbx; [|done].
  by rewrite (lt_trans _ _ _ Hab Hbx) in H.
Qed.

Lemma max_step_new acc b : Py.lt (Py.max acc b) b = false.
Proof.
  unfold Py.max, Py.gt. fold (Py.lt acc b).
  destruct (Py.lt acc b) eqn:Hab; [apply lt_irrefl|done].
Qed.

Lemma fold_max_greatest rest acc seen :
  In acc seen ->
  (forall x, In x seen -> Py.lt acc x = false) ->
  In (fold_left Py.max rest acc) (seen ++ rest) /\
  forall x, In x (seen ++ rest) -> Py.lt (fold_left Py.max rest acc) x = false.
Proof.
  revert acc seen. induction rest as [|b rest IH]; intros acc seen Hin Hle; simpl.
  - by rewrite app_nil_r.
  - replace (seen ++ b :: rest) with ((seen ++ [b]) ++ rest) by (by rewrite <- app_assoc).
    apply IH.
    + apply in_or_app. unfold Py.max. destruct (Py.gt b acc); [right; by left|by left].
    + intros x [Hx|[<-|[]]]%in_app_or.
      * by apply max_step, Hle.
      * apply max_step_new.
Qed.

(** The scan of [max] ends on one of its arguments, one that no argument
    exceeds. *)
Lemma max_of_greatest a rest :
  In (Py.max_of a rest) (a :: rest) /\
  forall x, In x (a :: rest) -> Py.gt x (Py.max_of a rest) = false.
Proof.
  apply (fold_max_greatest rest a [a]); [by left|].
  intros x [<-|[]]. apply lt_irrefl.
Qed.



Section SharedAxis.

Import DropdownApp.

(** X9: the two bar charts of the dropdown dashboard share one y-axis
    range, from 0 to 1.1 times a value that is one of the six plotted
    figures (current and 2030 generated, processed, gap) and that none of
    the six exceeds. *)
Theorem dropdown_shared_axis (df : list district_row)
    (selected_district : option string) (p : payload) :
  derive df selected_district = Ok p ->
  exists row curr_gen curr_proc curr_gap fut_gen fut_proc fut_gap top,
    iloc0 (select df selected_district) = Ok row /\
    col row "Sum of SW_Generation (TPD)" ≫= safe = Ok curr_gen /\
    col row "Sum of SW_Processed_ (TPD)" ≫= safe = Ok curr_proc /\
    col row "Sum of SW Collection Gap (in TPD)" ≫= safe = Ok curr_gap /\
    col row "Sum of SW_Generation (TPD)-2030" ≫= safe = Ok fut_gen /\
    col row "Sum of SW_Processed_ (TPD)-2030" ≫= safe = Ok fut_proc /\
    col row "Sum of SW Collection Gap (in TPD)-2030" ≫= safe = Ok fut_gap /\
    waste_bar_comparison p =
      [ Graph (bar_fig "Current Waste Metrics (TPD)" "Current"
                 curr_gen curr_proc curr_gap (top * 1.1)%float);
        Graph (bar_fig "2030 Waste Metrics (TPD)" "2030"
                 fut_gen fut_proc fut_gap (top * 1.1)%float) ] /\
    In top [curr_gen; curr_proc; curr_gap; fut_gen; fut_proc; fut_gap] /\
    (forall x, In x [curr_gen; curr_proc; curr_gap; fut_gen; fut_proc; fut_gap] ->
               Py.gt x top = false).
Proof.
  intros H. unfold derive in H.
  apply bind_Ok in H as (row & Erow & H).
  do 9 (apply bind_Ok in H as (? & ? & H)).
  apply bind_Ok in H as (cg & Ecg & H).
  apply bind_Ok in H as (cp & Ecp & H).
  apply bind_Ok in H as (cgap & Ecgap & H).
  apply bind_Ok in H as (fg & Efg & H).
  apply bind_Ok in H as (fp & Efp & H).
  apply bind_Ok in H as (fgap & Efgap & H).
  injection H as <-.
  exists row, cg, cp, cgap, fg, fp, fgap, (Py.max_of cg [cp; cgap; fg; fp; fgap]).
  split_and!; try done; apply max_of_greatest.
Qed.


Lemma dropdown_shared_axis_witness :
  exists p,
    derive sample_df (Some "Sagar") = Ok p /\
    exists row curr_gen curr_proc curr_gap fut_gen fut_proc fut_gap top,
      iloc0 (select sample_df (Some "Sagar")) = Ok row /\
      col row "Sum of SW_Generation (TPD)" ≫= safe = Ok curr_gen /\
      col row "Sum of SW_Processed_ (TPD)" ≫= safe = Ok curr_proc /\
      col row "Sum of SW Collection Gap (in TPD)" ≫= safe = Ok curr_gap /\
      col row "Sum of SW_Generation (TPD)-2030" ≫= safe = Ok fut_gen /\
      col row "Sum of SW_Processed_ (TPD)-2030" ≫= safe = Ok fut_proc /\
      col row "Sum of SW Collection Gap (in TPD)-2030" ≫= safe = Ok fut_gap /\
      waste_bar_comparison p =
        [ Graph (bar_fig "Current Waste Metrics (TPD)" "Current"
                   curr_gen curr_proc curr_gap (top * 1.1)%float);
          Graph (bar_fig "2030 Waste Metrics (TPD)" "2030"
                   fut_gen fut_proc fut_gap (top * 1.1)%float) ] /\
      In top [curr_gen; curr_proc; curr_gap; fut_gen; fut_proc; fut_gap] /\
      (forall x, In x [curr_gen; curr_proc; curr_gap; fut_gen; fut_proc; fut_gap] ->
                 Py.gt x top = false).
Proof.
  assert (exists p, derive sample_df (Some "Sagar") = Ok p) as [p E]
    by (eexists; vm_compute; reflexivity).
  exists p. split; [exact E|]. exact (dropdown_shared_axis _ _ _ E).
Defined.

End SharedAxis.

Section PieBounds.

Import MapDashboard.

(** X10: the gap slice of the processed-versus-gap pie is never negative
    and the processed slice never exceeds generated; with non-negative
    processed and generated figures the processed slice is non-negative
    too. *)
Theorem pie_slices_bounded (sw_proc sw_gen : float) :
  Py.le 0%float (gap_pie sw_proc sw_gen) = true /\
  Py.gt (proc_pie sw_proc sw_gen) sw_gen = false /\
  (Py.le 0%float sw_proc = true -> Py.le 0%float sw_gen = true ->
   Py.le 0%float (proc_pie sw_proc sw_gen) = true).
Proof.
  split_and!.
  - apply max_zero_nonneg.
  - unfold proc_pie, Py.min, Py.gt. fold (Py.lt sw_gen sw_proc).
    destruct (Py.lt sw_gen sw_proc) eqn:H; [apply lt_irrefl|done].
  - intros Hp Hg. unfold proc_pie, Py.min. by destruct (Py.lt sw_gen sw_proc).
Qed.

(** X11: a rendered payload of the map-click dashboard has six cards:
    the five KPI cards in a fixed order, then the district card, which shows
    the name exactly as clicked. *)
Theorem map_six_cards (district_name : string) (row : district_row) (p : payload) :
  render district_name row = Ok p ->
  length (kpi_cards p) = 6%nat /\
  kpi_cards p !! 5%nat = Some (Div [H4 "District"; P [Lit district_name]]) /\
  (exists v0 v1 v2 v3 v4,
     take 5 (kpi_cards p) =
       [ Div [H4 "Census 2011 Pop"; P v0];
         Div [H4 "SW Generated"; P v1];
         Div [H4 "% Waste Processed"; P v2];
         Div [H4 "Sewage Gen (MLD)"; P v3];
         Div [H4 "Decadal Growth Rate"; P v4] ]).
Proof.
  intros H. unfold render in H. bind_inv H. injection H as <-.
  split_and!; try done. by do 5 eexists.
Qed.


Lemma pie_slices_bounded_witness :
  Py.le 0%float (proc_pie 120 100) = true.
Proof.
  destruct (pie_slices_bounded 120 100) as (_ & _ & H).
  apply H; vm_compute; reflexivity.
Defined.

Lemma map_six_cards_witness :
  exists p,
    render " bhopal" (sample_row "Bhopal" (PyFloat 100) (PyFloat 120)) = Ok p /\
    length (kpi_cards p) = 6%nat /\
    kpi_cards p !! 5%nat = Some (Div [H4 "District"; P [Lit " bhopal"]]) /\
    (exists v0 v1 v2 v3 v4,
       take 5 (kpi_cards p) =
         [ Div [H4 "Census 2011 Pop"; P v0];
           Div [H4 "SW Generated"; P v1];
           Div [H4 "% Waste Processed"; P v2];
           Div [H4 "Sewage Gen (MLD)"; P v3];
           Div [H4 "Decadal Growth Rate"; P v4] ]).
Proof.
  assert (exists p, render " bhopal" (sample_row "Bhopal" (PyFloat 100) (PyFloat 120)) = Ok p)
    as [p E] by (eexists; vm_compute; reflexivity).
  exists p. split; [exact E|]. exact (map_six_cards _ _ _ E).
Defined.

End PieBounds.

End Ordering.

(** ** Agreement of the two dashboards *)

Section Agreement.

Lemma col_safe_get row c dflt x :
  DropdownApp.col row c ≫= safe = Ok x -> safe (MapDashboard.get row c dflt) = Ok x.
Proof.
  unfold DropdownApp.col, MapDashboard.get.
  by destruct (columns row !! c).
Qed.

(** X12: for one row, the first three KPI cards (census population,
    waste generated, percent processed) carry the same titles and values in
    the two dashboards. *)
Theorem dashboards_agree_on_first_cards (district_name : string) (row : district_row)
    (df : list district_row) (selected_district : option string)
    (p : MapDashboard.payload) (q : DropdownApp.payload) :
  MapDashboard.render district_name row = Ok p ->
  DropdownApp.iloc0 (DropdownApp.select df selected_district) = Ok row ->
  DropdownApp.derive df selected_district = Ok q ->
  take 3 (MapDashboard.kpi_cards p) = take 3 (DropdownApp.kpi_cards q).
Proof.
  intros Hp Hrow Hq.
  unfold DropdownApp.derive in Hq. rewrite Hrow in Hq. simpl in Hq.
  apply bind_Ok in Hq as (c' & Ec' & Hq).
  apply bind_Ok in Hq as (g' & Eg' & Hq).
  apply bind_Ok in Hq as (q' & Eq' & Hq).
  apply bind_Ok in Hq as (gap' & Egap' & Hq).
  apply bind_Ok in Hq as (pct' & Epct' & Hq).
  apply bind_Ok in Hq as (n' & En' & Hq).
  bind_inv Hq. injection Hq as <-.
  apply (col_safe_get _ _ (PyFloat 0)) in Ec', Eg', Eq'.
  unfold MapDashboard.render in Hp.
  apply bind_Ok in Hp as (c & Ec & Hp).
  apply bind_Ok in Hp as (g & Eg & Hp).
  apply bind_Ok in Hp as (pr & Epr & Hp).
  apply bind_Ok in Hp as (gap & Egap & Hp).
  apply bind_Ok in Hp as (pct & Epct & Hp).
  apply bind_Ok in Hp as (sew & Esew & Hp).
  apply bind_Ok in Hp as (gr & Egr & Hp).
  apply bind_Ok in Hp as (n & En & Hp).
  bind_inv Hp. injection Hp as <-.
  assert (c = c') as -> by congruence.
  assert (g = g') as -> by congruence.
  assert (pr = q') as -> by congruence.
  assert (pct = pct') as -> by congruence.
  assert (n = n') as -> by congruence.
  reflexivity.
Qed.


Lemma dashboards_agree_on_first_cards_witness :
  exists p q,
    MapDashboard.render "Sagar" (sample_row "Sagar" (PyFloat 100) (PyFloat 0)) = Ok p /\
    DropdownApp.derive sample_df (Some "Sagar") = Ok q /\
    take 3 (MapDashboard.kpi_cards p) = take 3 (DropdownApp.kpi_cards q).
Proof.
  assert (exists p, MapDashboard.render "Sagar" (sample_row "Sagar" (PyFloat 100) (PyFloat 0)) = Ok p) as [p Ep]
    by (eexists; vm_compute; reflexivity).
  assert (exists q, DropdownApp.derive sample_df (Some "Sagar") = Ok q) as [q Eq']
    by (eexists; vm_compute; reflexivity).
  exists p, q. split_and!; [exact Ep | exact Eq' |].
  apply (dashboards_agree_on_first_cards "Sagar" (sample_row "Sagar" (PyFloat 100) (PyFloat 0)) sample_df (Some "Sagar") p q Ep);
    [vm_compute; reflexivity | exact Eq'].
Defined.

End Agreement.
